(** * protoc-gen-go-grpc: the gRPC service generator

    A shallow embedding of [cmd/protoc-gen-go-grpc/grpc.go].  The generator
    walks a resolved description tree and writes Go source to a
    [protogen.GeneratedFile] through [g.P].  Here the text sink is the list
    of the lines written so far, a line being the list of arguments one call
    of [g.P] received; a panic of the generator is [None]. *)

From Stdlib Require Import String Ascii List Bool Arith Lia Permutation DecimalString.
Import ListNotations.
Open Scope list_scope.
Open Scope string_scope.

(** ** Go strings *)

(** The double quote character, as a one-byte string. *)
Definition dq : string := String "034"%char EmptyString.

(** [fmt.Sprintf("/%s/%s", a, b)]. *)
Definition Sprintf_path (a b : string) : string := "/" ++ a ++ "/" ++ b.

(** [strings.Join(elems, sep)]. *)
Fixpoint Join (elems : list string) (sep : string) : string :=
  match elems with
  | [] => EmptyString
  | [x] => x
  | x :: rest => x ++ sep ++ Join rest sep
  end.

(** [strings.HasPrefix(s, prefix)]. *)
Fixpoint HasPrefix (s prefix : string) : bool :=
  match prefix, s with
  | EmptyString, _ => true
  | String p prefix', String c s' => Ascii.eqb p c && HasPrefix s' prefix'
  | String _ _, EmptyString => false
  end.

(** ** The description tree (package protogen) *)

Module GoIdent.
Record t := Build { GoName : string; GoImportPath : string }.

Definition eqb (a b : t) : bool :=
  String.eqb (GoName a) (GoName b) && String.eqb (GoImportPath a) (GoImportPath b).
End GoIdent.

(** [protogen.GoImportPath.Ident]. *)
Definition Ident (path name : string) : GoIdent.t := GoIdent.Build name path.

Definition contextPackage : string := "context".
Definition grpcPackage : string := "google.golang.org/grpc".
Definition codesPackage : string := "google.golang.org/grpc/codes".
Definition statusPackage : string := "google.golang.org/grpc/status".

(** The fields of a [*protogen.Service] that are read through
    [method.Parent]: the back reference of a method to its service. *)
Module Parent.
Record t := Build {
  GoName : string;          (* service.GoName *)
  FullName : string;        (* service.Desc.FullName() *)
  Deprecated : bool         (* service.Desc.Options().GetDeprecated() *)
}.
End Parent.

Module Method.
Record t := Build {
  GoName : string;              (* method.GoName *)
  Name : string;                (* method.Desc.Name() *)
  IsStreamingClient : bool;     (* method.Desc.IsStreamingClient() *)
  IsStreamingServer : bool;     (* method.Desc.IsStreamingServer() *)
  Deprecated : bool;            (* method.Desc.Options().GetDeprecated() *)
  Leading : string;             (* method.Comments.Leading *)
  Input : GoIdent.t;            (* method.Input.GoIdent *)
  Output : GoIdent.t;           (* method.Output.GoIdent *)
  Parent : Parent.t             (* method.Parent *)
}.

(** Both streaming flags false. *)
Definition unary (m : t) : bool :=
  negb (IsStreamingClient m) && negb (IsStreamingServer m).
End Method.

Module Service.
Record t := Build {
  Head : Parent.t;
  Methods : list Method.t
}.
Definition GoName (s : t) : string := Parent.GoName (Head s).
Definition FullName (s : t) : string := Parent.FullName (Head s).
Definition Deprecated (s : t) : bool := Parent.Deprecated (Head s).
End Service.

Module File.
Record t := Build {
  Services : list Service.t;
  Path : string;                       (* file.Desc.Path() *)
  GeneratedFilenamePrefix : string;
  GoPackageName : string
}.
End File.

(** ** The text sink *)

(** One argument of [g.P]: a string, an identifier (qualified by the sink
    when it prints the line) or a comment set (printed through its
    [String] method). *)
Inductive Arg :=
| Str (s : string)
| Id (id : GoIdent.t)
| Cmt (c : string).

Definition Line := list Arg.

(** What the generator has written; [None] when it panicked. *)
Definition Gen := option (list Line).

(** [g.P(v...)].  The other call the generator makes on the file,
    [g.Annotate], records the source location of a symbol and writes
    nothing to the text: it has no counterpart here. *)
Definition P (v : list Arg) : Gen := Some [v].

Definition skip : Gen := Some [].

Definition andThen (a b : Gen) : Gen :=
  match a with
  | Some x => match b with Some y => Some (x ++ y)%list | None => None end
  | None => None
  end.

Notation "a ;; b" := (andThen a b) (at level 100, b at level 200, right associativity).
Notation "'let!' x ':=' e 'in' k" :=
  (match e with Some x => k | None => None end)
  (at level 10, x name, e at level 100, k at level 200, only parsing).

(** [if c { ... }] *)
Definition when (c : bool) (g : Gen) : Gen := if c then g else skip.

(** [for _, x := range l { ... }] *)
Fixpoint forEach {A : Type} (l : list A) (body : A -> Gen) : Gen :=
  match l with
  | [] => skip
  | x :: rest => body x ;; forEach rest body
  end.

Definition deprecationComment : string := "// Deprecated: Do not use.".

(** ** The generator *)

Section Generator.

(** The collaborators of the generator that live outside the repository:
    [g.QualifiedGoIdent] of protogen (taken as a function of the
    identifier, which it is within one run: see the sink below),
    [strconv.Quote] and [strings.ToLower]. *)
Variable QualifiedGoIdent : GoIdent.t -> string.
Variable Quote : string -> string.
Variable ToLower : string -> string.

(** [func unexport(s string) string { return strings.ToLower(s[:1]) + s[1:] }]
    The slice [s[:1]] of an empty string is out of range: a panic. *)
Definition unexport (s : string) : option string :=
  match s with
  | EmptyString => None
  | String c rest => Some (ToLower (String c EmptyString) ++ rest)
  end.

(** The result of [unexport] on a non-empty name. *)
Definition unexported (s : string) : string :=
  match s with
  | EmptyString => EmptyString
  | String c rest => ToLower (String c EmptyString) ++ rest
  end.

Definition clientSignature (method : Method.t) : string :=
  let s := Method.GoName method ++ "(ctx " ++ QualifiedGoIdent (Ident contextPackage "Context") in
  let s := if negb (Method.IsStreamingClient method)
           then s ++ ", in *" ++ QualifiedGoIdent (Method.Input method)
           else s in
  let s := s ++ ", opts ..." ++ QualifiedGoIdent (Ident grpcPackage "CallOption") ++ ") (" in
  let s := if negb (Method.IsStreamingClient method) && negb (Method.IsStreamingServer method)
           then s ++ "*" ++ QualifiedGoIdent (Method.Output method)
           else s ++ Parent.GoName (Method.Parent method) ++ "_" ++ Method.GoName method ++ "Client" in
  s ++ ", error)".

(** Lines 359-370, shared by [methodSignature] and [handlerSignature]:
    the argument list and the result type. *)
Definition signatureParts (method : Method.t) : list string * string :=
  let reqArgs := [] in
  let ret := "error" in
  let '(reqArgs, ret) :=
    if negb (Method.IsStreamingClient method) && negb (Method.IsStreamingServer method)
    then ((reqArgs ++ [QualifiedGoIdent (Ident contextPackage "Context")])%list,
          "(*" ++ QualifiedGoIdent (Method.Output method) ++ ", error)")
    else (reqArgs, ret) in
  let reqArgs :=
    if negb (Method.IsStreamingClient method)
    then (reqArgs ++ [("*" ++ QualifiedGoIdent (Method.Input method))%string])%list
    else reqArgs in
  let reqArgs :=
    if Method.IsStreamingClient method || Method.IsStreamingServer method
    then (reqArgs ++ [(Parent.GoName (Method.Parent method) ++ "_" ++ Method.GoName method ++ "Server")%string])%list
    else reqArgs in
  (reqArgs, ret).

Definition methodSignature (method : Method.t) : string :=
  let '(reqArgs, ret) := signatureParts method in
  Method.GoName method ++ "(" ++ Join reqArgs ", " ++ ") " ++ ret.

Definition handlerSignature (method : Method.t) : string :=
  let '(reqArgs, ret) := signatureParts method in
  Method.GoName method ++ " func(" ++ Join reqArgs ", " ++ ") " ++ ret.

Definition unaryHandlerSignature : string :=
  "(_ interface{}, ctx " ++ QualifiedGoIdent (Ident contextPackage "Context") ++
  ", dec func(interface{}) error, interceptor " ++
  QualifiedGoIdent (Ident grpcPackage "UnaryServerInterceptor") ++ ") (interface{}, error)".

Definition streamHandlerSignature : string :=
  "(_ interface{}, stream " ++ QualifiedGoIdent (Ident grpcPackage "ServerStream") ++ ") error".

(** [sname] of [genClientMethod]: the method path the client stub calls. *)
Definition sname (method : Method.t) : string :=
  Sprintf_path (Parent.FullName (Method.Parent method)) (Method.Name method).

(** Lines 176-222 of [genClientMethod]: the stream auxiliary types and
    methods of the client. *)
Definition genClientStreamTypes (streamType : string) (method : Method.t) : Gen :=
  let service := Method.Parent method in
  let genSend := Method.IsStreamingClient method in
  let genRecv := Method.IsStreamingServer method in
  let genCloseAndRecv := negb (Method.IsStreamingServer method) in
  P [Str "type "; Str (Parent.GoName service); Str "_"; Str (Method.GoName method); Str "Client interface {"] ;;
  when genSend (P [Str "Send(*"; Id (Method.Input method); Str ") error"]) ;;
  when genRecv (P [Str "Recv() (*"; Id (Method.Output method); Str ", error)"]) ;;
  when genCloseAndRecv (P [Str "CloseAndRecv() (*"; Id (Method.Output method); Str ", error)"]) ;;
  P [Id (Ident grpcPackage "ClientStream")] ;;
  P [Str "}"] ;;
  P [] ;;
  P [Str "type "; Str streamType; Str " struct {"] ;;
  P [Id (Ident grpcPackage "ClientStream")] ;;
  P [Str "}"] ;;
  P [] ;;
  when genSend (
    P [Str "func (x *"; Str streamType; Str ") Send(m *"; Id (Method.Input method); Str ") error {"] ;;
    P [Str "return x.ClientStream.SendMsg(m)"] ;;
    P [Str "}"] ;;
    P []) ;;
  when genRecv (
    P [Str "func (x *"; Str streamType; Str ") Recv() (*"; Id (Method.Output method); Str ", error) {"] ;;
    P [Str "m := new("; Id (Method.Output method); Str ")"] ;;
    P [Str "if err := x.ClientStream.RecvMsg(m); err != nil { return nil, err }"] ;;
    P [Str "return m, nil"] ;;
    P [Str "}"] ;;
    P []) ;;
  when genCloseAndRecv (
    P [Str "func (x *"; Str streamType; Str ") CloseAndRecv() (*"; Id (Method.Output method); Str ", error) {"] ;;
    P [Str "if err := x.ClientStream.CloseSend(); err != nil { return nil, err }"] ;;
    P [Str "m := new("; Id (Method.Output method); Str ")"] ;;
    P [Str "if err := x.ClientStream.RecvMsg(m); err != nil { return nil, err }"] ;;
    P [Str "return m, nil"] ;;
    P [Str "}"] ;;
    P []).

Definition genClientMethod (method : Method.t) : Gen :=
  let service := Method.Parent method in
  let sname := sname method in
  when (Method.Deprecated method) (P [Str deprecationComment]) ;;
  let! u := unexport (Parent.GoName service) in
  let streamDescName := u ++ Method.GoName method ++ "StreamDesc" in
  P [Str "var "; Str streamDescName; Str " = &"; Id (Ident grpcPackage "StreamDesc"); Str "{"] ;;
  P [Str "StreamName: "; Str (Quote (Method.Name method)); Str ","] ;;
  when (Method.IsStreamingServer method) (P [Str "ServerStreams: true,"]) ;;
  when (Method.IsStreamingClient method) (P [Str "ClientStreams: true,"]) ;;
  P [Str "}"] ;;
  let! u := unexport (Parent.GoName service) in
  P [Str "func (c *"; Str u; Str "Client) "; Str (clientSignature method); Str "{"] ;;
  if negb (Method.IsStreamingServer method) && negb (Method.IsStreamingClient method)
  then
    P [Str "out := new("; Id (Method.Output method); Str ")"] ;;
    P [Str ("err := c.cc.Invoke(ctx, " ++ dq); Str sname; Str (dq ++ ", in, out, opts...)")] ;;
    P [Str "if err != nil { return nil, err }"] ;;
    P [Str "return out, nil"] ;;
    P [Str "}"] ;;
    P []
  else
    let! u := unexport (Parent.GoName service) in
    let streamType := u ++ Method.GoName method ++ "Client" in
    P [Str "stream, err := c.cc.NewStream(ctx, "; Str streamDescName; Str (", " ++ dq); Str sname; Str (dq ++ ", opts...)")] ;;
    P [Str "if err != nil { return nil, err }"] ;;
    P [Str "x := &"; Str streamType; Str "{stream}"] ;;
    when (negb (Method.IsStreamingClient method)) (
      P [Str "if err := x.ClientStream.SendMsg(in); err != nil { return nil, err }"] ;;
      P [Str "if err := x.ClientStream.CloseSend(); err != nil { return nil, err }"]) ;;
    P [Str "return x, nil"] ;;
    P [Str "}"] ;;
    P [] ;;
    genClientStreamTypes streamType method.

Definition genClient (migrationMode : bool) (service : Service.t) : Gen :=
  if migrationMode then skip else
  let clientName := Service.GoName service ++ "Client" in
  P [Str "// "; Str clientName; Str " is the client API for "; Str (Service.GoName service); Str " service."] ;;
  P [Str "//"] ;;
  P [Str "// For semantics around ctx use and closing/ending streaming RPCs, please refer to https://pkg.go.dev/google.golang.org/grpc/?tab=doc#ClientConn.NewStream."] ;;
  when (Service.Deprecated service) (
    P [Str "//"] ;;
    P [Str deprecationComment]) ;;
  P [Str "type "; Str clientName; Str " interface {"] ;;
  forEach (Service.Methods service) (fun method =>
    when (Method.Deprecated method) (P [Str deprecationComment]) ;;
    P [Cmt (Method.Leading method); Str (clientSignature method)]) ;;
  P [Str "}"] ;;
  P [] ;;
  let! u := unexport clientName in
  P [Str "type "; Str u; Str " struct {"] ;;
  P [Str "cc "; Id (Ident grpcPackage "ClientConnInterface")] ;;
  P [Str "}"] ;;
  P [] ;;
  when (Service.Deprecated service) (P [Str deprecationComment]) ;;
  P [Str "func New"; Str clientName; Str " (cc "; Id (Ident grpcPackage "ClientConnInterface"); Str ") "; Str clientName; Str " {"] ;;
  let! u := unexport clientName in
  P [Str "return &"; Str u; Str "{cc}"] ;;
  P [Str "}"] ;;
  P [] ;;
  forEach (Service.Methods service) genClientMethod.

Definition genHandlerBody (method : Method.t) : Gen :=
  let service := Method.Parent method in
  if negb (Method.IsStreamingClient method) && negb (Method.IsStreamingServer method)
  then
    P [Str "in := new("; Id (Method.Input method); Str ")"] ;;
    P [Str "if err := dec(in); err != nil { return nil, err }"] ;;
    P [Str "if interceptor == nil { return s."; Str (Method.GoName method); Str "(ctx, in) }"] ;;
    P [Str "info := &"; Id (Ident grpcPackage "UnaryServerInfo"); Str "{"] ;;
    P [Str "Server: s,"] ;;
    P [Str "FullMethod: "; Str (Quote (Sprintf_path (Parent.FullName service) (Method.GoName method))); Str ","] ;;
    P [Str "}"] ;;
    P [Str "handler := func(ctx "; Id (Ident contextPackage "Context"); Str ", req interface{}) (interface{}, error) {"] ;;
    P [Str "return s."; Str (Method.GoName method); Str "(ctx, req.(*"; Id (Method.Input method); Str "))"] ;;
    P [Str "}"] ;;
    P [Str "return interceptor(ctx, in, info, handler)"]
  else
    let! u := unexport (Parent.GoName service) in
    let streamType := u ++ Method.GoName method ++ "Server" in
    if negb (Method.IsStreamingClient method)
    then
      P [Str "m := new("; Id (Method.Input method); Str ")"] ;;
      P [Str "if err := stream.RecvMsg(m); err != nil { return err }"] ;;
      P [Str "return s."; Str (Method.GoName method); Str "(m, &"; Str streamType; Str "{stream})"]
    else
      P [Str "return s."; Str (Method.GoName method); Str "(&"; Str streamType; Str "{stream})"].

Definition genMethodHandler (method : Method.t) : Gen :=
  let service := Method.Parent method in
  let '(nilArg, signature) :=
    if negb (Method.IsStreamingClient method) && negb (Method.IsStreamingServer method)
    then ("nil,", unaryHandlerSignature)
    else (EmptyString, streamHandlerSignature) in
  let! u := unexport (Method.GoName method) in
  P [Str "func (s *"; Str (Parent.GoName service); Str "Service) "; Str u; Str signature; Str " {"] ;;
  P [Str "if s."; Str (Method.GoName method); Str " == nil {"] ;;
  P [Str "return "; Str nilArg; Id (Ident statusPackage "Errorf"); Str "("; Id (Ident codesPackage "Unimplemented");
     Str (", " ++ dq ++ "method "); Str (Method.GoName method); Str (" not implemented" ++ dq ++ ")")] ;;
  P [Str "}"] ;;
  genHandlerBody method ;;
  P [Str "}"].

Definition genServerStreamTypes (migrationMode : bool) (method : Method.t) : Gen :=
  if migrationMode then skip else
  if negb (Method.IsStreamingClient method) && negb (Method.IsStreamingServer method)
  then skip
  else
    let service := Method.Parent method in
    let! u := unexport (Parent.GoName service) in
    let streamType := u ++ Method.GoName method ++ "Server" in
    let genSend := Method.IsStreamingServer method in
    let genSendAndClose := negb (Method.IsStreamingServer method) in
    let genRecv := Method.IsStreamingClient method in
    P [Str "type "; Str (Parent.GoName service); Str "_"; Str (Method.GoName method); Str "Server interface {"] ;;
    when genSend (P [Str "Send(*"; Id (Method.Output method); Str ") error"]) ;;
    when genSendAndClose (P [Str "SendAndClose(*"; Id (Method.Output method); Str ") error"]) ;;
    when genRecv (P [Str "Recv() (*"; Id (Method.Input method); Str ", error)"]) ;;
    P [Id (Ident grpcPackage "ServerStream")] ;;
    P [Str "}"] ;;
    P [] ;;
    P [Str "type "; Str streamType; Str " struct {"] ;;
    P [Id (Ident grpcPackage "ServerStream")] ;;
    P [Str "}"] ;;
    P [] ;;
    when genSend (
      P [Str "func (x *"; Str streamType; Str ") Send(m *"; Id (Method.Output method); Str ") error {"] ;;
      P [Str "return x.ServerStream.SendMsg(m)"] ;;
      P [Str "}"] ;;
      P []) ;;
    when genSendAndClose (
      P [Str "func (x *"; Str streamType; Str ") SendAndClose(m *"; Id (Method.Output method); Str ") error {"] ;;
      P [Str "return x.ServerStream.SendMsg(m)"] ;;
      P [Str "}"] ;;
      P []) ;;
    when genRecv (
      P [Str "func (x *"; Str streamType; Str ") Recv() (*"; Id (Method.Input method); Str ", error) {"] ;;
      P [Str "m := new("; Id (Method.Input method); Str ")"] ;;
      P [Str "if err := x.ServerStream.RecvMsg(m); err != nil { return nil, err }"] ;;
      P [Str "return m, nil"] ;;
      P [Str "}"] ;;
      P []).

Definition genRegisterFunction (file : File.t) (service : Service.t) : Gen :=
  P [Str "// Register"; Str (Service.GoName service); Str "Service registers a service implementation with a gRPC server."] ;;
  when (Service.Deprecated service) (
    P [Str "//"] ;;
    P [Str deprecationComment]) ;;
  P [Str "func Register"; Str (Service.GoName service); Str "Service(s "; Id (Ident grpcPackage "ServiceRegistrar");
     Str ", srv *"; Str (Service.GoName service); Str "Service) {"] ;;
  P [Str "sd := "; Id (Ident grpcPackage "ServiceDesc"); Str " {"] ;;
  P [Str "ServiceName: "; Str (Quote (Service.FullName service)); Str ","] ;;
  P [Str "Methods: []"; Id (Ident grpcPackage "MethodDesc"); Str "{"] ;;
  forEach (Service.Methods service) (fun method =>
    if Method.IsStreamingClient method || Method.IsStreamingServer method
    then skip
    else
      P [Str "{"] ;;
      P [Str "MethodName: "; Str (Quote (Method.Name method)); Str ","] ;;
      let! u := unexport (Method.GoName method) in
      P [Str "Handler: srv."; Str u; Str ","] ;;
      P [Str "},"]) ;;
  P [Str "},"] ;;
  P [Str "Streams: []"; Id (Ident grpcPackage "StreamDesc"); Str "{"] ;;
  forEach (Service.Methods service) (fun method =>
    if negb (Method.IsStreamingClient method) && negb (Method.IsStreamingServer method)
    then skip
    else
      P [Str "{"] ;;
      P [Str "StreamName: "; Str (Quote (Method.Name method)); Str ","] ;;
      let! u := unexport (Method.GoName method) in
      P [Str "Handler: srv."; Str u; Str ","] ;;
      when (Method.IsStreamingServer method) (P [Str "ServerStreams: true,"]) ;;
      when (Method.IsStreamingClient method) (P [Str "ClientStreams: true,"]) ;;
      P [Str "},"]) ;;
  P [Str "},"] ;;
  P [Str ("Metadata: " ++ dq); Str (File.Path file); Str (dq ++ ",")] ;;
  P [Str "}"] ;;
  P [] ;;
  P [Str "s.RegisterService(&sd, nil)"] ;;
  P [Str "}"] ;;
  P [].

Definition genServiceConstructor (service : Service.t) : Gen :=
  P [Str "// New"; Str (Service.GoName service); Str "Service creates a new "; Str (Service.GoName service); Str "Service containing the"] ;;
  P [Str "// implemented methods of the "; Str (Service.GoName service); Str " service in s.  Any unimplemented"] ;;
  P [Str "// methods will result in the gRPC server returning an UNIMPLEMENTED status to the client."] ;;
  P [Str "// This includes situations where the method handler is misspelled or has the wrong"] ;;
  P [Str "// signature.  For this reason, this function should be used with great care and"] ;;
  P [Str "// is not recommended to be used by most users."] ;;
  P [Str "func New"; Str (Service.GoName service); Str "Service(s interface{}) *"; Str (Service.GoName service); Str "Service {"] ;;
  P [Str "ns := &"; Str (Service.GoName service); Str "Service{}"] ;;
  forEach (Service.Methods service) (fun method =>
    P [Str "if h, ok := s.(interface {"; Str (methodSignature method); Str "}); ok {"] ;;
    P [Str "ns."; Str (Method.GoName method); Str " = h."; Str (Method.GoName method)] ;;
    P [Str "}"]) ;;
  P [Str "return ns"] ;;
  P [Str "}"] ;;
  P [].

Definition genUnstableServiceInterface (service : Service.t) : Gen :=
  let serviceType := Service.GoName service ++ "Service" in
  P [Str "// Unstable"; Str serviceType; Str " is the service API for "; Str (Service.GoName service); Str " service."] ;;
  P [Str "// New methods may be added to this interface if they are added to the service"] ;;
  P [Str "// definition, which is not a backward-compatible change.  For this reason, "] ;;
  P [Str "// use of this type is not recommended."] ;;
  when (Service.Deprecated service) (
    P [Str "//"] ;;
    P [Str deprecationComment]) ;;
  P [Str "type Unstable"; Str serviceType; Str " interface {"] ;;
  forEach (Service.Methods service) (fun method =>
    when (Method.Deprecated method) (P [Str deprecationComment]) ;;
    P [Cmt (Method.Leading method); Str (methodSignature method)]) ;;
  P [Str "}"] ;;
  P [].

(** Lines 226-247 of [genService]: the server struct. *)
Definition genServiceStruct (service : Service.t) : Gen :=
  let serviceType := Service.GoName service ++ "Service" in
  P [Str "// "; Str serviceType; Str " is the service API for "; Str (Service.GoName service); Str " service."] ;;
  P [Str "// Fields should be assigned to their respective handler implementations only before"] ;;
  P [Str "// Register"; Str serviceType; Str " is called.  Any unassigned fields will result in the"] ;;
  P [Str "// handler for that method returning an Unimplemented error."] ;;
  when (Service.Deprecated service) (
    P [Str "//"] ;;
    P [Str deprecationComment]) ;;
  P [Str "type "; Str serviceType; Str " struct {"] ;;
  forEach (Service.Methods service) (fun method =>
    when (Method.Deprecated method) (P [Str deprecationComment]) ;;
    P [Cmt (Method.Leading method); Str (handlerSignature method)]) ;;
  P [Str "}"] ;;
  P [].

Definition genService (migrationMode : bool) (file : File.t) (service : Service.t) : Gen :=
  (* Server struct. *)
  genServiceStruct service ;;
  (* Method handler implementations. *)
  forEach (Service.Methods service) genMethodHandler ;;
  (* Stream interfaces and implementations. *)
  forEach (Service.Methods service) (genServerStreamTypes migrationMode) ;;
  (* Service registration. *)
  genRegisterFunction file service ;;
  (* Short-cut service constructor. *)
  genServiceConstructor service.

Definition generateFileContent (migrationMode : bool) (file : File.t) : Gen :=
  if Nat.eqb (List.length (File.Services file)) 0 then skip else
  P [Str "// This is a compile-time assertion to ensure that this generated file"] ;;
  P [Str "// is compatible with the grpc package it is being compiled against."] ;;
  P [Str "const _ = "; Id (Ident grpcPackage "SupportPackageIsVersion7")] ;;
  P [] ;;
  forEach (File.Services file) (fun service =>
    genClient migrationMode service ;;
    genService migrationMode file service ;;
    genUnstableServiceInterface service).

(** [generateFile]: [Some None] is the nil result for a file without
    services, [Some (Some (filename, lines))] a generated file. *)
Definition generateFile (migrationMode : bool) (file : File.t) : option (option (string * list Line)) :=
  if Nat.eqb (List.length (File.Services file)) 0 then Some None else
  let filename := File.GeneratedFilenamePrefix file ++ "_grpc.pb.go" in
  let! out :=
    P [Str "// Code generated by protoc-gen-go-grpc. DO NOT EDIT."] ;;
    P [] ;;
    P [Str "package "; Str (File.GoPackageName file)] ;;
    P [] ;;
    generateFileContent migrationMode file in
  Some (Some (filename, out)).

(** The text the sink holds for a line: [g.P] prints every argument,
    identifiers through [QualifiedGoIdent]; [comments] is the [String]
    method of [protogen.Comments]. *)
Definition renderArg (comments : string -> string) (a : Arg) : string :=
  match a with
  | Str s => s
  | Id id => QualifiedGoIdent id
  | Cmt c => comments c
  end.

Definition renderLine (comments : string -> string) (l : Line) : string :=
  String.concat EmptyString (map (renderArg comments) l).

Definition render (comments : string -> string) (out : list Line) : list string :=
  map (renderLine comments) out.


(** ** Reading the generated text *)

Definition Arg_eqb (a b : Arg) : bool :=
  match a, b with
  | Str x, Str y => String.eqb x y
  | Id x, Id y => GoIdent.eqb x y
  | Cmt x, Cmt y => String.eqb x y
  | _, _ => false
  end.

Fixpoint Line_eqb (a b : Line) : bool :=
  match a, b with
  | [], [] => true
  | x :: a', y :: b' => Arg_eqb x y && Line_eqb a' b'
  | _, _ => false
  end.

(** The lines that follow the first line satisfying [h]. *)
Fixpoint linesAfter (h : Line -> bool) (out : list Line) : option (list Line) :=
  match out with
  | [] => None
  | l :: rest => if h l then Some rest else linesAfter h rest
  end.

(** The lines up to the first line satisfying [h], that line left out. *)
Fixpoint linesUntil (h : Line -> bool) (out : list Line) : list Line :=
  match out with
  | [] => []
  | l :: rest => if h l then [] else l :: linesUntil h rest
  end.

(** The body of the first block that the line [header] opens: the lines
    between it and the next closing brace. *)
Definition blockOf (header : Line) (out : list Line) : option (list Line) :=
  match linesAfter (Line_eqb header) out with
  | Some rest => Some (linesUntil (Line_eqb [Str "}"]) rest)
  | None => None
  end.

(** A line of an interface body declares the method [name] when its text
    starts with [name(]. *)
Definition declaresMethod (name : string) (l : Line) : bool :=
  match l with
  | Str s :: _ => HasPrefix s (name ++ "(")
  | _ => false
  end.

(** The method [name] is in the method set an interface body lists. *)
Definition exposes (name : string) (body : list Line) : bool :=
  existsb (declaresMethod name) body.

(** [func (x *streamType) name(] opens a method of the wrapper struct. *)
Definition definesMethod (streamType name : string) (l : Line) : bool :=
  match l with
  | Str f :: Str t :: Str s :: _ =>
      String.eqb f "func (x *" && String.eqb t streamType && HasPrefix s (") " ++ name ++ "(")
  | _ => false
  end.

Definition implements (streamType name : string) (out : list Line) : bool :=
  existsb (definesMethod streamType name) out.

(** A line that opens a type declaration. *)
Definition declaresType (l : Line) : bool :=
  match l with
  | Str s :: _ => String.eqb s "type "
  | _ => false
  end.

(** The header lines of the two stream interfaces of a method. *)
Definition clientStreamHeader (method : Method.t) : Line :=
  [Str "type "; Str (Parent.GoName (Method.Parent method)); Str "_"; Str (Method.GoName method); Str "Client interface {"].

Definition serverStreamHeader (method : Method.t) : Line :=
  [Str "type "; Str (Parent.GoName (Method.Parent method)); Str "_"; Str (Method.GoName method); Str "Server interface {"].

(** ** What the generated functions do

    The bodies the generator writes are sequences of a few statement
    forms.  [stmtOf] reads a written line back as the Go statement it is,
    and [exec] runs a body against the answers of its collaborators (the
    decode callback, the interceptor, the streams, the handler fields). *)

Inductive Stmt :=
| IfFieldNil (field : string)                (* if s.F == nil { *)
| ReturnErrorf (code : GoIdent.t) (msg : string)
                                             (* return [nil,]status.Errorf(code, "msg") *)
| BlockEnd                                   (* } *)
| New                                        (* v := new(T) *)
| Dec                                        (* if err := dec(in); err != nil { return nil, err } *)
| IfNoInterceptorCall (field : string)       (* if interceptor == nil { return s.F(ctx, in) } *)
| LitOpen                                    (* info := &grpc.UnaryServerInfo{ *)
| LitField                                   (* Server: s,   FullMethod: "...", *)
| FuncLitOpen                                (* handler := func(...) (...) { *)
| ReturnInterceptor                          (* return interceptor(ctx, in, info, handler) *)
| RecvMsg                                    (* if err := stream.RecvMsg(m); err != nil { return err } *)
| ReturnCall (field : string)                (* return s.F(...) *)
| NewStream (desc path : string)             (* stream, err := c.cc.NewStream(ctx, desc, "path", opts...) *)
| Invoke (path : string)                     (* err := c.cc.Invoke(ctx, "path", in, out, opts...) *)
| IfErrReturn                                (* if err != nil { return nil, err } *)
| Wrap (streamType : string)                 (* x := &T{stream} *)
| SendMsg                                    (* if err := x.ClientStream.SendMsg(in); err != nil { return nil, err } *)
| CloseSend                                  (* if err := x.ClientStream.CloseSend(); err != nil { return nil, err } *)
| ReturnX                                    (* return x, nil *)
| ReturnOut.                                 (* return out, nil *)

Definition stmtOf (l : Line) : option Stmt :=
  match l with
  | [Str a] =>
      if String.eqb a "}" then Some BlockEnd
      else if String.eqb a "if err := dec(in); err != nil { return nil, err }" then Some Dec
      else if String.eqb a "Server: s," then Some LitField
      else if String.eqb a "return interceptor(ctx, in, info, handler)" then Some ReturnInterceptor
      else if String.eqb a "if err := stream.RecvMsg(m); err != nil { return err }" then Some RecvMsg
      else if String.eqb a "if err != nil { return nil, err }" then Some IfErrReturn
      else if String.eqb a "if err := x.ClientStream.SendMsg(in); err != nil { return nil, err }" then Some SendMsg
      else if String.eqb a "if err := x.ClientStream.CloseSend(); err != nil { return nil, err }" then Some CloseSend
      else if String.eqb a "return x, nil" then Some ReturnX
      else if String.eqb a "return out, nil" then Some ReturnOut
      else None
  | [Str a; Id _; Str b] =>
      if (String.eqb a "in := new(" || String.eqb a "m := new(" || String.eqb a "out := new(")
         && String.eqb b ")" then Some New
      else if String.eqb a "info := &" && String.eqb b "{" then Some LitOpen
      else if String.eqb a "handler := func(ctx "
              && String.eqb b ", req interface{}) (interface{}, error) {" then Some FuncLitOpen
      else None
  | [Str a; Str f; Str b] =>
      if String.eqb a "if s." && String.eqb b " == nil {" then Some (IfFieldNil f)
      else if String.eqb a "if interceptor == nil { return s." && String.eqb b "(ctx, in) }"
           then Some (IfNoInterceptorCall f)
      else if String.eqb a "FullMethod: " && String.eqb b "," then Some LitField
      else if String.eqb a "x := &" && String.eqb b "{stream}" then Some (Wrap f)
      else if String.eqb a ("err := c.cc.Invoke(ctx, " ++ dq) && String.eqb b (dq ++ ", in, out, opts...)")
           then Some (Invoke f)
      else None
  | [Str a; Str f; Str b; Str t; Str c] =>
      if String.eqb a "return s."
         && (String.eqb b "(m, &" || String.eqb b "(&") && String.eqb c "{stream})"
      then Some (ReturnCall f)
      else if String.eqb a "stream, err := c.cc.NewStream(ctx, " && String.eqb b (", " ++ dq)
              && String.eqb c (dq ++ ", opts...)")
           then Some (NewStream f t)
      else None
  | [Str a; Str f; Str b; Id _; Str c] =>
      if String.eqb a "return s." && String.eqb b "(ctx, req.(*" && String.eqb c "))"
      then Some (ReturnCall f) else None
  | [Str a; Str n; Id errorf; Str b; Id code; Str c; Str name; Str d] =>
      if String.eqb a "return " && (String.eqb n "nil," || String.eqb n EmptyString)
         && GoIdent.eqb errorf (Ident statusPackage "Errorf") && String.eqb b "("
         && String.eqb c (", " ++ dq ++ "method ") && String.eqb d (" not implemented" ++ dq ++ ")")
      then Some (ReturnErrorf code ("method " ++ name ++ " not implemented"))
      else None
  | _ => None
  end.

(** What a collaborator was asked to do, in the order of the calls. *)
Inductive Event :=
| EvDec                                  (* the decode callback *)
| EvRecvMsg                              (* stream.RecvMsg *)
| EvHandler (field : string)             (* the handler held by the field *)
| EvInterceptor                          (* the interceptor *)
| EvNewStream (desc path : string)       (* cc.NewStream *)
| EvInvoke (path : string)               (* cc.Invoke *)
| EvSendMsg                              (* ClientStream.SendMsg *)
| EvCloseSend.                           (* ClientStream.CloseSend *)

Inductive Error :=
| Errorf (code : GoIdent.t) (msg : string)   (* built by status.Errorf *)
| Failure (e : string).                      (* returned by a collaborator *)

Inductive Value :=
| VNil
| VWrapper (streamType : string)             (* &T{stream} *)
| VOut.                                      (* the allocated output message *)

Inductive Result :=
| Ret (v : Value) (err : option Error)       (* return v, err *)
| RetHandler (field : string)                (* return s.F(...) *)
| RetInterceptor.                            (* return interceptor(...) *)

Inductive Outcome :=
| Returns (r : Result)
| FallsOff                                   (* the closing brace of the function *)
| Stuck (l : Line).                          (* not a statement of the generated code *)

(** The answers of the collaborators. *)
Record World := {
  fieldNil : string -> bool;          (* s.F == nil *)
  interceptorNil : bool;              (* interceptor == nil *)
  decErr : option string;             (* dec(in) *)
  recvErr : option string;            (* stream.RecvMsg(m) *)
  newStreamErr : option string;       (* cc.NewStream *)
  invokeErr : option string;          (* cc.Invoke *)
  sendErr : option string;            (* ClientStream.SendMsg *)
  closeSendErr : option string        (* ClientStream.CloseSend *)
}.

Record Frame := {
  skipping : nat;                     (* depth inside a block that is not run *)
  depth : nat;                        (* open blocks that are being run *)
  err : option string;                (* the variable err *)
  x : Value;                          (* the variable x *)
  trace : list Event                  (* calls made so far, latest first *)
}.

Definition start : Frame :=
  {| skipping := 0; depth := 0; err := None; x := VNil; trace := [] |}.

Definition emit (e : Event) (fr : Frame) : Frame :=
  {| skipping := skipping fr; depth := depth fr; err := err fr; x := x fr; trace := e :: trace fr |}.

Definition opensBlock (s : Stmt) : bool :=
  match s with
  | IfFieldNil _ | LitOpen | FuncLitOpen => true
  | _ => false
  end.

(** One statement: the next frame, or the outcome that ends the run. *)
Definition step (w : World) (s : Stmt) (fr : Frame) : Frame + (list Event * Outcome) :=
  let enter fr := {| skipping := 0; depth := S (depth fr); err := err fr; x := x fr; trace := trace fr |} in
  let skipTo n fr := {| skipping := n; depth := depth fr; err := err fr; x := x fr; trace := trace fr |} in
  let orFail (e : option string) (fr : Frame) : Frame + (list Event * Outcome) :=
    match e with
    | Some e => inr (rev (trace fr), Returns (Ret VNil (Some (Failure e))))
    | None => inl fr
    end in
  match skipping fr with
  | S n =>
      if opensBlock s then inl (skipTo (S (S n)) fr)
      else match s with
           | BlockEnd => inl (skipTo n fr)
           | _ => inl fr
           end
  | O =>
      match s with
      | IfFieldNil f => if fieldNil w f then inl (enter fr) else inl (skipTo 1 fr)
      | ReturnErrorf code msg => inr (rev (trace fr), Returns (Ret VNil (Some (Errorf code msg))))
      | BlockEnd =>
          match depth fr with
          | O => inr (rev (trace fr), FallsOff)
          | S d => inl {| skipping := 0; depth := d; err := err fr; x := x fr; trace := trace fr |}
          end
      | New => inl fr
      | Dec => orFail (decErr w) (emit EvDec fr)
      | IfNoInterceptorCall f =>
          if interceptorNil w
          then inr (rev (EvHandler f :: trace fr), Returns (RetHandler f))
          else inl fr
      | LitOpen => inl (enter fr)
      | LitField => inl fr
      | FuncLitOpen => inl (skipTo 1 fr)
      | ReturnInterceptor => inr (rev (EvInterceptor :: trace fr), Returns RetInterceptor)
      | RecvMsg => orFail (recvErr w) (emit EvRecvMsg fr)
      | ReturnCall f => inr (rev (EvHandler f :: trace fr), Returns (RetHandler f))
      | NewStream d p =>
          inl {| skipping := 0; depth := depth fr; err := newStreamErr w; x := x fr;
                 trace := EvNewStream d p :: trace fr |}
      | Invoke p =>
          inl {| skipping := 0; depth := depth fr; err := invokeErr w; x := x fr;
                 trace := EvInvoke p :: trace fr |}
      | IfErrReturn => orFail (err fr) fr
      | Wrap t => inl {| skipping := 0; depth := depth fr; err := err fr; x := VWrapper t; trace := trace fr |}
      | SendMsg => orFail (sendErr w) (emit EvSendMsg fr)
      | CloseSend => orFail (closeSendErr w) (emit EvCloseSend fr)
      | ReturnX => inr (rev (trace fr), Returns (Ret (x fr) None))
      | ReturnOut => inr (rev (trace fr), Returns (Ret VOut None))
      end
  end.

(** Run the lines of a function body, the header line left out. *)
Fixpoint exec (w : World) (body : list Line) (fr : Frame) : list Event * Outcome :=
  match body with
  | [] => (rev (trace fr), FallsOff)
  | l :: rest =>
      match stmtOf l with
      | None => (rev (trace fr), Stuck l)
      | Some s =>
          match step w s fr with
          | inl fr' => exec w rest fr'
          | inr res => res
          end
      end
  end.

(** The header line of a function with receiver [recv]. *)
Definition funcHeader (recv : string) (l : Line) : bool :=
  match l with
  | Str s :: _ => String.eqb s ("func (" ++ recv ++ " *")
  | _ => false
  end.

(** Run the first function with receiver [recv] that [out] holds. *)
Definition run (w : World) (recv : string) (out : list Line) : option (list Event * Outcome) :=
  match linesAfter (funcHeader recv) out with
  | Some body => Some (exec w body start)
  | None => None
  end.

(** ** The service descriptor a registration function builds *)

(** An element of [Methods] or [Streams]; a field the literal leaves out
    has its zero value. *)
Record Entry := {
  EntryName : string;          (* MethodName / StreamName: the literal as written *)
  Handler : string;            (* Handler: srv.<name> *)
  ServerStreams : bool;
  ClientStreams : bool
}.

Record ServiceDesc := {
  ServiceName : string;        (* the literal as written *)
  Methods : list Entry;
  Streams : list Entry;
  Metadata : string            (* the text between the quotes *)
}.

Definition zeroEntry : Entry :=
  {| EntryName := EmptyString; Handler := EmptyString; ServerStreams := false; ClientStreams := false |}.

(** One line inside an element literal; [nameKey] is the name field of
    the element type and [flags] tells whether the type has the two
    streaming flags. *)
Definition readField (nameKey : string) (flags : bool) (l : Line) (e : Entry) : option Entry :=
  match l with
  | [Str k; Str v; Str c] =>
      if negb (String.eqb c ",") then None
      else if String.eqb k nameKey
      then Some {| EntryName := v; Handler := Handler e;
                   ServerStreams := ServerStreams e; ClientStreams := ClientStreams e |}
      else if String.eqb k "Handler: srv."
      then Some {| EntryName := EntryName e; Handler := v;
                   ServerStreams := ServerStreams e; ClientStreams := ClientStreams e |}
      else None
  | [Str k] =>
      if flags && String.eqb k "ServerStreams: true,"
      then Some {| EntryName := EntryName e; Handler := Handler e;
                   ServerStreams := true; ClientStreams := ClientStreams e |}
      else if flags && String.eqb k "ClientStreams: true,"
      then Some {| EntryName := EntryName e; Handler := Handler e;
                   ServerStreams := ServerStreams e; ClientStreams := true |}
      else None
  | _ => None
  end.

(** The elements of a slice literal, up to the line that closes the slice;
    also the lines that follow it. *)
Fixpoint readEntries (nameKey : string) (flags : bool) (lines : list Line)
         (cur : option Entry) (acc : list Entry) : option (list Entry * list Line) :=
  match lines with
  | [] => None
  | l :: rest =>
      match cur with
      | None =>
          if Line_eqb l [Str "{"] then readEntries nameKey flags rest (Some zeroEntry) acc
          else if Line_eqb l [Str "},"] then Some (rev acc, rest)
          else None
      | Some e =>
          if Line_eqb l [Str "},"] then readEntries nameKey flags rest None (e :: acc)
          else match readField nameKey flags l e with
               | Some e' => readEntries nameKey flags rest (Some e') acc
               | None => None
               end
      end
  end.

(** The value of [sd] in a registration function, and the statements
    that follow its declaration. *)
Definition readServiceDesc (out : list Line) : option (ServiceDesc * list Line) :=
  match linesAfter (Line_eqb [Str "sd := "; Id (Ident grpcPackage "ServiceDesc"); Str " {"]) out with
  | Some ([Str a; Str name; Str b] :: [Str c; Id md; Str d] :: rest) =>
      if String.eqb a "ServiceName: " && String.eqb b ","
         && String.eqb c "Methods: []" && GoIdent.eqb md (Ident grpcPackage "MethodDesc") && String.eqb d "{"
      then
        match readEntries "MethodName: " false rest None [] with
        | Some (methods, [Str c'; Id sd; Str d'] :: rest') =>
            if String.eqb c' "Streams: []" && GoIdent.eqb sd (Ident grpcPackage "StreamDesc") && String.eqb d' "{"
            then
              match readEntries "StreamName: " true rest' None [] with
              | Some (streams, [Str m; Str path; Str m'] :: [Str close] :: rest'') =>
                  if String.eqb m ("Metadata: " ++ dq) && String.eqb m' (dq ++ ",") && String.eqb close "}"
                  then Some ({| ServiceName := name; Methods := methods;
                                Streams := streams; Metadata := path |}, rest'')
                  else None
              | _ => None
              end
            else None
        | _ => None
        end
      else None
  | _ => None
  end.

(** ** A sample description file *)

(** [strings.ToLower] on a string of ASCII bytes. *)
Definition asciiLower (c : ascii) : ascii :=
  let n := nat_of_ascii c in
  if Nat.leb 65 n && Nat.leb n 90 then ascii_of_nat (n + 32) else c.

Fixpoint asciiToLower (s : string) : string :=
  match s with
  | EmptyString => EmptyString
  | String c rest => String (asciiLower c) (asciiToLower rest)
  end.

(** [strconv.Quote] on a string of printable ASCII bytes without quote
    or backslash. *)
Definition plainQuote (s : string) : string := dq ++ s ++ dq.

(** Identifiers of the generated package stay bare, others carry the
    last element of their import path. *)
Fixpoint baseName (acc path : string) : string :=
  match path with
  | EmptyString => acc
  | String c rest => if Ascii.eqb c "/"%char then baseName EmptyString rest
                     else baseName (acc ++ String c EmptyString) rest
  end.

Definition sampleQualify (id : GoIdent.t) : string :=
  if String.eqb (GoIdent.GoImportPath id) "example.com/route"
  then GoIdent.GoName id
  else baseName EmptyString (GoIdent.GoImportPath id) ++ "." ++ GoIdent.GoName id.

Definition routeGuide : Parent.t :=
  {| Parent.GoName := "RouteGuide"; Parent.FullName := "routeguide.RouteGuide"; Parent.Deprecated := false |}.

Definition msg (name : string) : GoIdent.t := Ident "example.com/route" name.

Definition sampleMethod (goName name : string) (cs ss : bool) (input output : string) : Method.t :=
  {| Method.GoName := goName; Method.Name := name;
     Method.IsStreamingClient := cs; Method.IsStreamingServer := ss;
     Method.Deprecated := false; Method.Leading := EmptyString;
     Method.Input := msg input; Method.Output := msg output;
     Method.Parent := routeGuide |}.

Definition GetFeature : Method.t := sampleMethod "GetFeature" "GetFeature" false false "Point" "Feature".
Definition ListFeatures : Method.t := sampleMethod "ListFeatures" "ListFeatures" false true "Rectangle" "Feature".
Definition RecordRoute : Method.t := sampleMethod "RecordRoute" "RecordRoute" true false "Point" "RouteSummary".
Definition RouteChat : Method.t := sampleMethod "RouteChat" "RouteChat" true true "RouteNote" "RouteNote".

(** A unary method whose name in the description file is not in Go's
    camel case: [rpc get_feature(Point) returns (Feature)]. *)
Definition get_feature : Method.t := sampleMethod "GetFeature" "get_feature" false false "Point" "Feature".

Definition routeGuideService : Service.t :=
  {| Service.Head := routeGuide;
     Service.Methods := [GetFeature; ListFeatures; RecordRoute; RouteChat] |}.

Definition routeGuideFile : File.t :=
  {| File.Services := [routeGuideService];
     File.Path := "route_guide.proto";
     File.GeneratedFilenamePrefix := "route_guide";
     File.GoPackageName := "route" |}.

(** A world in which every field is unset, and one in which every field
    is set and no collaborator fails. *)
Definition allNil : World :=
  {| fieldNil := fun _ => true; interceptorNil := true;
     decErr := None; recvErr := None; newStreamErr := None; invokeErr := None;
     sendErr := None; closeSendErr := None |}.

Definition allSet : World :=
  {| fieldNil := fun _ => false; interceptorNil := false;
     decErr := None; recvErr := None; newStreamErr := None; invokeErr := None;
     sendErr := None; closeSendErr := None |}.

(** ** Names as protogen builds them

    Service and method names come from identifiers of the description
    file, which are never empty. *)

Definition nonEmpty (s : string) : bool := negb (String.eqb s EmptyString).

Definition namedMethod (m : Method.t) : bool :=
  nonEmpty (Method.GoName m) && nonEmpty (Parent.GoName (Method.Parent m)).

Definition namedService (s : Service.t) : bool :=
  nonEmpty (Service.GoName s) && forallb namedMethod (Service.Methods s).

Definition namedFile (f : File.t) : bool := forallb namedService (File.Services f).

(** ** The shape of the output *)

(** The lines a builder wrote. *)
Definition linesOf (g : Gen) : list Line :=
  match g with
  | Some out => out
  | None => []
  end.

(** The four lines [generateFileContent] writes before the services. *)
Definition preamble : list Line :=
  [ [Str "// This is a compile-time assertion to ensure that this generated file"];
    [Str "// is compatible with the grpc package it is being compiled against."];
    [Str "const _ = "; Id (Ident grpcPackage "SupportPackageIsVersion7")];
    [] ].

(** The server dispatch part of [genService]: the struct, the adapters
    and the stream types, which come before the registration function. *)
Definition genDispatch (migrationMode : bool) (service : Service.t) : Gen :=
  genServiceStruct service ;;
  forEach (Service.Methods service) genMethodHandler ;;
  forEach (Service.Methods service) (genServerStreamTypes migrationMode).

(** The three lines every adapter starts with. *)
Definition nilGuard (method : Method.t) : list Line :=
  [ [Str "if s."; Str (Method.GoName method); Str " == nil {"];
    [Str "return "; Str (if Method.unary method then "nil," else EmptyString);
     Id (Ident statusPackage "Errorf"); Str "("; Id (Ident codesPackage "Unimplemented");
     Str (", " ++ dq ++ "method "); Str (Method.GoName method); Str (" not implemented" ++ dq ++ ")")];
    [Str "}"] ].

Definition adapterHeader (method : Method.t) : Line :=
  [Str "func (s *"; Str (Parent.GoName (Method.Parent method)); Str "Service) ";
   Str (unexported (Method.GoName method));
   Str (if Method.unary method then unaryHandlerSignature else streamHandlerSignature); Str " {"].

Definition unimplemented (method : Method.t) : Error :=
  Errorf (Ident codesPackage "Unimplemented") ("method " ++ Method.GoName method ++ " not implemented").

(** The names [genClientMethod] gives to the stream descriptor and to
    the client stream struct of a method, and [genServerStreamTypes] to
    the server stream struct. *)
Definition streamDescName (method : Method.t) : string :=
  unexported (Parent.GoName (Method.Parent method)) ++ Method.GoName method ++ "StreamDesc".

Definition clientStreamType (method : Method.t) : string :=
  unexported (Parent.GoName (Method.Parent method)) ++ Method.GoName method ++ "Client".

Definition serverStreamType (method : Method.t) : string :=
  unexported (Parent.GoName (Method.Parent method)) ++ Method.GoName method ++ "Server".

(** The builder returned: it did not panic. *)
Definition returns (g : Gen) : Prop := exists out, g = Some out.

(** The adapters and the server stream types of a service, as
    [genService] writes them: one method after the other. *)
Definition adapters (service : Service.t) : list Line :=
  flat_map (fun method => linesOf (genMethodHandler method)) (Service.Methods service).

Definition serverStreamTypes (migrationMode : bool) (service : Service.t) : list Line :=
  flat_map (fun method => linesOf (genServerStreamTypes migrationMode method)) (Service.Methods service).

(** The element [genRegisterFunction] writes for a method: in [Methods]
    for a method with both streaming flags false, in [Streams] for the
    others. *)
Definition methodEntryLines (method : Method.t) : list Line :=
  if Method.IsStreamingClient method || Method.IsStreamingServer method then []
  else [ [Str "{"];
         [Str "MethodName: "; Str (Quote (Method.Name method)); Str ","];
         [Str "Handler: srv."; Str (unexported (Method.GoName method)); Str ","];
         [Str "},"] ].

Definition streamEntryLines (method : Method.t) : list Line :=
  if negb (Method.IsStreamingClient method) && negb (Method.IsStreamingServer method) then []
  else ([Str "{"] ::
        [Str "StreamName: "; Str (Quote (Method.Name method)); Str ","] ::
        [Str "Handler: srv."; Str (unexported (Method.GoName method)); Str ","] ::
        (if Method.IsStreamingServer method then [[Str "ServerStreams: true,"]] else []) ++
        (if Method.IsStreamingClient method then [[Str "ClientStreams: true,"]] else []) ++
        [[Str "},"]])%list.

(** The descriptor entry of a method: its name as [genRegisterFunction]
    quotes it, the adapter [genMethodHandler] declares for it and its two
    streaming flags. *)
Definition entryOf (method : Method.t) : Entry :=
  {| EntryName := Quote (Method.Name method);
     Handler := unexported (Method.GoName method);
     ServerStreams := Method.IsStreamingServer method;
     ClientStreams := Method.IsStreamingClient method |}.

Definition streaming (method : Method.t) : bool :=
  Method.IsStreamingClient method || Method.IsStreamingServer method.

(** ** What the methods of the stream wrappers do

    The methods of the wrapper structs use four more statement forms, on
    the embedded stream [x.ClientStream] or [x.ServerStream]. *)

Inductive WrapperStmt :=
| WNew                      (* m := new(T) *)
| WRecvMsg                  (* if err := x.<stream>.RecvMsg(m); err != nil { return nil, err } *)
| WCloseSend                (* if err := x.ClientStream.CloseSend(); err != nil { return nil, err } *)
| WReturnSendMsg            (* return x.<stream>.SendMsg(m) *)
| WReturnM                  (* return m, nil *)
| WEnd.                     (* } *)

Definition wrapperStmtOf (stream : string) (l : Line) : option WrapperStmt :=
  match l with
  | [Str a] =>
      if String.eqb a "}" then Some WEnd
      else if String.eqb a ("return x." ++ stream ++ ".SendMsg(m)") then Some WReturnSendMsg
      else if String.eqb a ("if err := x." ++ stream ++ ".RecvMsg(m); err != nil { return nil, err }")
           then Some WRecvMsg
      else if String.eqb a "if err := x.ClientStream.CloseSend(); err != nil { return nil, err }"
           then Some WCloseSend
      else if String.eqb a "return m, nil" then Some WReturnM
      else None
  | [Str a; Id _; Str b] =>
      if String.eqb a "m := new(" && String.eqb b ")" then Some WNew else None
  | _ => None
  end.

Inductive WrapperResult :=
| Sent (err : option string)        (* return x.<stream>.SendMsg(m): its error, or nil *)
| Received                          (* return m, nil *)
| NotReceived (e : string).         (* return nil, err *)

(** Run the body of a wrapper method; [None] when the lines are not a
    body that returns.  The calls made are listed latest first in
    [trace]. *)
Fixpoint execWrapper (w : World) (stream : string) (body : list Line) (trace : list Event)
  : option (list Event * WrapperResult) :=
  match body with
  | [] => None
  | l :: rest =>
      match wrapperStmtOf stream l with
      | Some WNew => execWrapper w stream rest trace
      | Some WRecvMsg =>
          match recvErr w with
          | Some e => Some (rev (EvRecvMsg :: trace), NotReceived e)
          | None => execWrapper w stream rest (EvRecvMsg :: trace)
          end
      | Some WCloseSend =>
          match closeSendErr w with
          | Some e => Some (rev (EvCloseSend :: trace), NotReceived e)
          | None => execWrapper w stream rest (EvCloseSend :: trace)
          end
      | Some WReturnSendMsg => Some (rev (EvSendMsg :: trace), Sent (sendErr w))
      | Some WReturnM => Some (rev trace, Received)
      | Some WEnd => None
      | None => None
      end
  end.

(** Run the method [name] of the wrapper struct [streamType]. *)
Definition runWrapper (w : World) (stream streamType name : string) (out : list Line)
  : option (list Event * WrapperResult) :=
  match linesAfter (definesMethod streamType name) out with
  | Some body => execWrapper w stream body []
  | None => None
  end.

(** ** Reading the listings and the constructor *)

(** What the client interface, the server struct and the unstable
    interface list for the methods of a service: one entry a method,
    under the deprecation notice when the method is deprecated. *)
Definition listing (signature : Method.t -> string) (methods : list Method.t) : list Line :=
  flat_map (fun method =>
              (if Method.Deprecated method then [[Str deprecationComment]] else []) ++
              [[Cmt (Method.Leading method); Str (signature method)]])%list
           methods.

(** The entries of a listing: the lines made of a comment set and a
    signature. *)
Definition isEntry (l : Line) : bool :=
  match l with
  | [Cmt _; Str _] => true
  | _ => false
  end.

(** The assignments a service constructor attempts, in order: the
    signature it asserts of [s], the field it assigns and the method
    value it assigns to it. *)
Fixpoint readAssignments (asserted : option string) (lines : list Line)
  : list (string * string * string) :=
  match lines with
  | [] => []
  | l :: rest =>
      match l with
      | [Str a; Str signature; Str b] =>
          if String.eqb a "if h, ok := s.(interface {" && String.eqb b "}); ok {"
          then readAssignments (Some signature) rest
          else readAssignments None rest
      | [Str a; Str field; Str b; Str value] =>
          if String.eqb a "ns." && String.eqb b " = h."
          then match asserted with
               | Some signature => (signature, field, value) :: readAssignments None rest
               | None => readAssignments None rest
               end
          else readAssignments None rest
      | _ => readAssignments None rest
      end
  end.

(** The value of a literal whose fields are the lines [lines]. *)
Fixpoint readLiteral (nameKey : string) (flags : bool) (lines : list Line) (e : Entry) : option Entry :=
  match lines with
  | [] => Some e
  | l :: rest =>
      match readField nameKey flags l e with
      | Some e' => readLiteral nameKey flags rest e'
      | None => None
      end
  end.

(** A line that belongs to client code: the header of a client method
    or of a wrapper method, the declaration of a stream descriptor or of
    a stream interface. *)
Definition clientCode (l : Line) : bool :=
  funcHeader "c" l || funcHeader "x" l ||
  match l with
  | Str a :: rest =>
      String.eqb a "var " ||
      (String.eqb a "type " &&
       match rest with
       | [Str _; Str u; Str _; Str _] => String.eqb u "_"
       | _ => false
       end)
  | _ => false
  end.

(** Every line a builder writes satisfies [q]. *)
Definition allLines (q : Line -> Prop) (g : Gen) : Prop :=
  forall out, g = Some out -> Forall q out.

(** The names of the two stream interfaces of a method, as the
    signatures spell them. *)
Definition clientStreamName (method : Method.t) : string :=
  Parent.GoName (Method.Parent method) ++ "_" ++ Method.GoName method ++ "Client".

Definition serverStreamName (method : Method.t) : string :=
  Parent.GoName (Method.Parent method) ++ "_" ++ Method.GoName method ++ "Server".

(** The sample service with one more method, which has no Go name. *)
Definition unnamedMethod : Method.t := sampleMethod EmptyString "export" false false "Point" "Feature".

Definition unnamedService : Service.t :=
  {| Service.Head := routeGuide; Service.Methods := [GetFeature; unnamedMethod] |}.

Definition unnamedFile : File.t :=
  {| File.Services := [unnamedService];
     File.Path := "route_guide.proto";
     File.GeneratedFilenamePrefix := "route_guide";
     File.GoPackageName := "route" |}.

(** ** The sink and the names of the imported packages

    [g.QualifiedGoIdent] is a method of the file being written.  An
    identifier of the package of the file itself stays bare.  Any other
    identifier is prefixed with the name the file has given to its import
    path: the name chosen when the path was first asked for, which is the
    base name of the path, or that name followed by the first of 1, 2, ...
    that makes it differ from the names already used.  Within one run an
    identifier is therefore always answered alike, and the generator sees
    a function; which function depends on the order in which the run asks
    for the identifiers. *)

(** [g.packageNames], in the order the names were given;
    [g.usedPackageNames] holds these names and, from the start, the
    predeclared identifiers of Go. *)
Definition Names := list (string * string).

Fixpoint packageName (names : Names) (path : string) : option string :=
  match names with
  | [] => None
  | (p, n) :: rest => if String.eqb p path then Some n else packageName rest path
  end.

Definition usedPackageName (predeclared : list string) (names : Names) (name : string) : bool :=
  existsb (String.eqb name) predeclared || existsb (fun pn => String.eqb (snd pn) name) names.

(** [strconv.Itoa]. *)
Definition Itoa (i : nat) : string := NilEmpty.string_of_uint (Nat.to_uint i).

(** [for i, orig := 1, packageName; g.usedPackageNames[packageName]; i++
    { packageName = orig + strconv.Itoa(i) }], entered with a used name;
    [fuel] bounds the candidates tried. *)
Fixpoint nextPackageName (predeclared : list string) (fuel i : nat) (orig : string) (names : Names)
  : string :=
  let candidate := orig ++ Itoa i in
  match fuel with
  | O => candidate
  | S fuel' =>
      if usedPackageName predeclared names candidate
      then nextPackageName predeclared fuel' (S i) orig names
      else candidate
  end.

(** [g.QualifiedGoIdent(ident)]: the text for the identifier and the
    names after the call.  [own] is the import path of the file being
    written, [base] gives the package name a path asks for and
    [predeclared] lists the predeclared identifiers. *)
Definition qualify (own : string) (base : string -> string) (predeclared : list string)
           (names : Names) (ident : GoIdent.t) : string * Names :=
  if String.eqb (GoIdent.GoImportPath ident) own then (GoIdent.GoName ident, names)
  else
    match packageName names (GoIdent.GoImportPath ident) with
    | Some name => (name ++ "." ++ GoIdent.GoName ident, names)
    | None =>
        let orig := base (GoIdent.GoImportPath ident) in
        let name := if usedPackageName predeclared names orig
                    then nextPackageName predeclared (List.length predeclared + List.length names)
                                         1 orig names
                    else orig in
        (name ++ "." ++ GoIdent.GoName ident, (names ++ [(GoIdent.GoImportPath ident, name)])%list)
    end.

(** The names after a sequence of calls. *)
Definition namesAfter (own : string) (base : string -> string) (predeclared : list string)
           (names : Names) (asked : list GoIdent.t) : Names :=
  fold_left (fun names ident => snd (qualify own base predeclared names ident)) asked names.

(** The answers of the sink at the end of a run that asked for [asked]. *)
Definition qualifierOf (own : string) (base : string -> string) (predeclared : list string)
           (asked : list GoIdent.t) : GoIdent.t -> string :=
  fun ident => fst (qualify own base predeclared (namesAfter own base predeclared [] asked) ident).

(** *** The identifiers the generator asks for

    For each function of the generator, the identifiers it passes to
    [g.QualifiedGoIdent], itself or as arguments of [g.P], in the order
    of the calls. *)

Definition clientSignatureUses (method : Method.t) : list GoIdent.t :=
  ([Ident contextPackage "Context"] ++
   (if negb (Method.IsStreamingClient method) then [Method.Input method] else []) ++
   [Ident grpcPackage "CallOption"] ++
   (if negb (Method.IsStreamingClient method) && negb (Method.IsStreamingServer method)
    then [Method.Output method] else []))%list.

(** [methodSignature] and [handlerSignature]: the result type is built
    before the request is appended to the arguments. *)
Definition signatureUses (method : Method.t) : list GoIdent.t :=
  ((if negb (Method.IsStreamingClient method) && negb (Method.IsStreamingServer method)
    then [Ident contextPackage "Context"; Method.Output method] else []) ++
   (if negb (Method.IsStreamingClient method) then [Method.Input method] else []))%list.

Definition unaryHandlerSignatureUses : list GoIdent.t :=
  [Ident contextPackage "Context"; Ident grpcPackage "UnaryServerInterceptor"].

Definition streamHandlerSignatureUses : list GoIdent.t :=
  [Ident grpcPackage "ServerStream"].

Definition genClientMethodUses (method : Method.t) : list GoIdent.t :=
  ([Ident grpcPackage "StreamDesc"] ++
   clientSignatureUses method ++
   (if negb (Method.IsStreamingServer method) && negb (Method.IsStreamingClient method)
    then [Method.Output method]
    else
      let genSend := Method.IsStreamingClient method in
      let genRecv := Method.IsStreamingServer method in
      let genCloseAndRecv := negb (Method.IsStreamingServer method) in
      (if genSend then [Method.Input method] else []) ++
      (if genRecv then [Method.Output method] else []) ++
      (if genCloseAndRecv then [Method.Output method] else []) ++
      [Ident grpcPackage "ClientStream"; Ident grpcPackage "ClientStream"] ++
      (if genSend then [Method.Input method] else []) ++
      (if genRecv then [Method.Output method; Method.Output method] else []) ++
      (if genCloseAndRecv then [Method.Output method; Method.Output method] else [])))%list.

Definition genClientUses (migrationMode : bool) (service : Service.t) : list GoIdent.t :=
  if migrationMode then [] else
  (flat_map clientSignatureUses (Service.Methods service) ++
   [Ident grpcPackage "ClientConnInterface"; Ident grpcPackage "ClientConnInterface"] ++
   flat_map genClientMethodUses (Service.Methods service))%list.

Definition genHandlerBodyUses (method : Method.t) : list GoIdent.t :=
  if negb (Method.IsStreamingClient method) && negb (Method.IsStreamingServer method)
  then [Method.Input method; Ident grpcPackage "UnaryServerInfo"; Ident contextPackage "Context";
        Method.Input method]
  else if negb (Method.IsStreamingClient method) then [Method.Input method] else [].

(** [genMethodHandler] builds the stream signature first, and the unary
    one also for a unary method. *)
Definition genMethodHandlerUses (method : Method.t) : list GoIdent.t :=
  (streamHandlerSignatureUses ++
   (if negb (Method.IsStreamingClient method) && negb (Method.IsStreamingServer method)
    then unaryHandlerSignatureUses else []) ++
   [Ident statusPackage "Errorf"; Ident codesPackage "Unimplemented"] ++
   genHandlerBodyUses method)%list.

Definition genServerStreamTypesUses (migrationMode : bool) (method : Method.t) : list GoIdent.t :=
  if migrationMode then [] else
  if negb (Method.IsStreamingClient method) && negb (Method.IsStreamingServer method) then [] else
  let genSend := Method.IsStreamingServer method in
  let genSendAndClose := negb (Method.IsStreamingServer method) in
  let genRecv := Method.IsStreamingClient method in
  ((if genSend then [Method.Output method] else []) ++
   (if genSendAndClose then [Method.Output method] else []) ++
   (if genRecv then [Method.Input method] else []) ++
   [Ident grpcPackage "ServerStream"; Ident grpcPackage "ServerStream"] ++
   (if genSend then [Method.Output method] else []) ++
   (if genSendAndClose then [Method.Output method] else []) ++
   (if genRecv then [Method.Input method; Method.Input method] else []))%list.

Definition genRegisterFunctionUses : list GoIdent.t :=
  [Ident grpcPackage "ServiceRegistrar"; Ident grpcPackage "ServiceDesc";
   Ident grpcPackage "MethodDesc"; Ident grpcPackage "StreamDesc"].

Definition genServiceUses (migrationMode : bool) (service : Service.t) : list GoIdent.t :=
  (flat_map signatureUses (Service.Methods service) ++
   flat_map genMethodHandlerUses (Service.Methods service) ++
   flat_map (genServerStreamTypesUses migrationMode) (Service.Methods service) ++
   genRegisterFunctionUses ++
   flat_map signatureUses (Service.Methods service))%list.

Definition genUnstableServiceInterfaceUses (service : Service.t) : list GoIdent.t :=
  flat_map signatureUses (Service.Methods service).

Definition generateFileContentUses (migrationMode : bool) (file : File.t) : list GoIdent.t :=
  if Nat.eqb (List.length (File.Services file)) 0 then [] else
  (Ident grpcPackage "SupportPackageIsVersion7" ::
   flat_map (fun service =>
               genClientUses migrationMode service ++
               genServiceUses migrationMode service ++
               genUnstableServiceInterfaceUses service)
            (File.Services file))%list.

(** The identifiers a line hands to the sink. *)
Definition identsOfLine (l : Line) : list GoIdent.t :=
  flat_map (fun a => match a with Id id => [id] | _ => [] end) l.

(** The server side of a service, as [genService] and
    [genUnstableServiceInterface] write it in either mode: the struct
    and the adapters, and then the registration function, the
    constructor and the unstable interface. *)
Definition serverSide (service : Service.t) (file : File.t) : list Line :=
  (linesOf (genServiceStruct service) ++ adapters service ++
   linesOf (genRegisterFunction file service) ++ linesOf (genServiceConstructor service) ++
   linesOf (genUnstableServiceInterface service))%list.

(** *** A run of the generator

    The text of a run: the lines of the generator, printed by the sink
    with the names the run has given to the packages. *)

(** A service with one bidirectional method whose request message is of
    another package, named [status]. *)
Definition Watch : Method.t :=
  {| Method.GoName := "Watch"; Method.Name := "Watch";
     Method.IsStreamingClient := true; Method.IsStreamingServer := true;
     Method.Deprecated := false; Method.Leading := EmptyString;
     Method.Input := Ident "example.com/status" "Report"; Method.Output := msg "Feature";
     Method.Parent := routeGuide |}.

Definition watchService : Service.t :=
  {| Service.Head := routeGuide; Service.Methods := [Watch] |}.

Definition watchFile : File.t :=
  {| File.Services := [watchService];
     File.Path := "route_guide.proto";
     File.GeneratedFilenamePrefix := "route_guide";
     File.GoPackageName := "route" |}.

(** The answers of the sink in a run of [generateFileContent]. *)
Definition runQualifier (own : string) (base : string -> string) (predeclared : list string)
           (migrationMode : bool) (file : File.t) : GoIdent.t -> string :=
  qualifierOf own base predeclared (generateFileContentUses migrationMode file).

(** Every identifier a line hands to the sink is among [allowed]. *)
Definition identsWithin (allowed : list GoIdent.t) (l : Line) : bool :=
  forallb (fun id => existsb (GoIdent.eqb id) allowed) (identsOfLine l).

(** The predeclared identifiers of Go. *)
Definition universe : list string :=
  ["bool"; "byte"; "complex64"; "complex128"; "error"; "float32"; "float64";
   "int"; "int8"; "int16"; "int32"; "int64"; "rune"; "string";
   "uint"; "uint8"; "uint16"; "uint32"; "uint64"; "uintptr";
   "true"; "false"; "iota"; "nil";
   "append"; "cap"; "close"; "complex"; "copy"; "delete"; "imag"; "len"; "make"; "new";
   "panic"; "print"; "println"; "real"; "recover"].

(** The two runs of the generator on [watchFile], a file of the package
    [example.com/route]. *)
Definition watchQualifier (migrationMode : bool) : GoIdent.t -> string :=
  runQualifier "example.com/route" (baseName EmptyString) universe migrationMode watchFile.

Definition routeGuideQualifier (migrationMode : bool) : GoIdent.t -> string :=
  runQualifier "example.com/route" (baseName EmptyString) universe migrationMode routeGuideFile.

(** ** Properties *)

Lemma nonEmpty_cons (s : string) :
  nonEmpty s = true -> exists c rest, s = String c rest.
Proof.
  destruct s as [|c rest]; [discriminate|]. intros _. now exists c, rest.
Qed.

Lemma unexport_nonEmpty (s : string) :
  nonEmpty s = true -> unexport s = Some (unexported s).
Proof.
  intros H. destruct (nonEmpty_cons s H) as (c & rest & ->). reflexivity.
Qed.

Lemma unexport_append (s t : string) :
  nonEmpty t = true -> unexport (s ++ t) = Some (unexported (s ++ t)).
Proof.
  intros H. destruct (nonEmpty_cons t H) as (c & rest & ->).
  destruct s; reflexivity.
Qed.

Lemma namedMethod_inv (m : Method.t) :
  namedMethod m = true ->
  nonEmpty (Method.GoName m) = true /\ nonEmpty (Parent.GoName (Method.Parent m)) = true.
Proof. unfold namedMethod. intros H. now apply andb_true_iff in H. Qed.

Lemma andThen_Some_inv (a b : Gen) (out : list Line) :
  (a ;; b) = Some out ->
  exists x y, a = Some x /\ b = Some y /\ out = (x ++ y)%list.
Proof.
  destruct a as [x|]; [|discriminate]. destruct b as [y|]; [|discriminate].
  intros [= <-]. now exists x, y.
Qed.

Lemma forEach_Some {A : Type} (l : list A) (body : A -> Gen) (lines : A -> list Line) :
  (forall a, In a l -> body a = Some (lines a)) ->
  forEach l body = Some (flat_map lines l).
Proof.
  induction l as [|a l IH]; intros H; simpl; [reflexivity|].
  rewrite (H a (or_introl eq_refl)), IH by (intros b Hb; apply H; now right).
  reflexivity.
Qed.

Lemma linesAfter_head (h : Line -> bool) (l : Line) (rest : list Line) :
  h l = true -> linesAfter h (l :: rest) = Some rest.
Proof. intros H. simpl. now rewrite H. Qed.

Lemma returns_P (v : list Arg) : returns (P v).
Proof. now exists [v]. Qed.

Lemma returns_skip : returns skip.
Proof. now exists []. Qed.

Lemma returns_andThen (a b : Gen) : returns a -> returns b -> returns (a ;; b).
Proof. intros [x ->] [y ->]. now exists (x ++ y)%list. Qed.

Lemma returns_when (c : bool) (g : Gen) : returns g -> returns (when c g).
Proof. destruct c; [trivial | intros _; apply returns_skip]. Qed.

Lemma returns_forEach {A : Type} (l : list A) (body : A -> Gen) :
  (forall a, In a l -> returns (body a)) -> returns (forEach l body).
Proof.
  induction l as [|a l IH]; intros H; simpl; [apply returns_skip|].
  apply returns_andThen; [apply H; now left | apply IH; intros b Hb; apply H; now right].
Qed.

Lemma returns_linesOf (g : Gen) : returns g -> g = Some (linesOf g).
Proof. now intros [out ->]. Qed.

Lemma forEach_linesOf {A : Type} (l : list A) (body : A -> Gen) :
  (forall a, In a l -> returns (body a)) ->
  forEach l body = Some (flat_map (fun a => linesOf (body a)) l).
Proof.
  intros H. apply forEach_Some. intros a Ha. apply returns_linesOf, H, Ha.
Qed.

Lemma andThen_assoc (a b c : Gen) : ((a ;; b) ;; c) = (a ;; b ;; c).
Proof.
  destruct a as [x|], b as [y|], c as [z|]; simpl; try reflexivity.
  now rewrite app_assoc.
Qed.

(** Discharges [returns] along a straight sequence of writes. *)
Ltac straight :=
  repeat first [ apply returns_P | apply returns_skip | apply returns_andThen | apply returns_when ].

(** *** The dispatch adapters *)

Lemma genHandlerBody_Some (m : Method.t) :
  namedMethod m = true -> exists body, genHandlerBody m = Some body.
Proof.
  intros H. apply namedMethod_inv in H as [_ Hs].
  unfold genHandlerBody. rewrite (unexport_nonEmpty _ Hs).
  destruct (Method.IsStreamingClient m), (Method.IsStreamingServer m);
    eexists; reflexivity.
Qed.

Lemma genMethodHandler_shape (m : Method.t) :
  namedMethod m = true ->
  exists body,
    genHandlerBody m = Some body /\
    genMethodHandler m = Some (adapterHeader m :: nilGuard m ++ body ++ [[Str "}"]])%list.
Proof.
  intros H. destruct (genHandlerBody_Some m H) as [body Hb].
  exists body. split; [exact Hb|].
  apply namedMethod_inv in H as [Hm _].
  unfold genMethodHandler, adapterHeader, nilGuard, Method.unary.
  rewrite (unexport_nonEmpty _ Hm), Hb.
  destruct (Method.IsStreamingClient m), (Method.IsStreamingServer m); reflexivity.
Qed.

Lemma exec_nilGuard (w : World) (m : Method.t) (rest : list Line) :
  fieldNil w (Method.GoName m) = true ->
  exec w (nilGuard m ++ rest) start = ([], Returns (Ret VNil (Some (unimplemented m)))).
Proof.
  intros H. unfold nilGuard, unimplemented.
  destruct (Method.unary m); simpl; unfold step at 1; simpl; rewrite H; reflexivity.
Qed.

Lemma run_adapter_nil (w : World) (m : Method.t) :
  namedMethod m = true ->
  fieldNil w (Method.GoName m) = true ->
  exists out,
    genMethodHandler m = Some out /\
    run w "s" out = Some ([], Returns (Ret VNil (Some (unimplemented m)))).
Proof.
  intros Hn Hw. destruct (genMethodHandler_shape m Hn) as (body & _ & Hout).
  eexists. split; [exact Hout|].
  unfold run. rewrite linesAfter_head by reflexivity.
  now rewrite (exec_nilGuard w m _ Hw).
Qed.

(** With the field set, the first call an adapter makes is the decode
    callback (unary), the receive of the request (server streaming only)
    or the handler itself (client and bidirectional streaming). *)
Lemma adapter_processes_when_field_set (m : Method.t) (w : World) :
  namedMethod m = true ->
  fieldNil w (Method.GoName m) = false ->
  exists out tr r,
    genMethodHandler m = Some out /\
    run w "s" out = Some (tr, r) /\
    hd_error tr = Some (if Method.unary m then EvDec
                        else if Method.IsStreamingClient m then EvHandler (Method.GoName m)
                        else EvRecvMsg).
Proof.
  intros Hn Hw. destruct (genMethodHandler_shape m Hn) as (body & Hb & Hout).
  exists (adapterHeader m :: nilGuard m ++ body ++ [[Str "}"]])%list.
  enough (exists tr r,
            run w "s" (adapterHeader m :: nilGuard m ++ body ++ [[Str "}"]])%list = Some (tr, r) /\
            hd_error tr = Some (if Method.unary m then EvDec
                                else if Method.IsStreamingClient m then EvHandler (Method.GoName m)
                                else EvRecvMsg))
    as (tr & r & H1 & H2) by (exists tr, r; auto).
  unfold run. rewrite linesAfter_head by reflexivity.
  apply namedMethod_inv in Hn as [_ Hs].
  unfold genHandlerBody in Hb. rewrite (unexport_nonEmpty _ Hs) in Hb.
  unfold nilGuard, Method.unary.
  destruct (Method.IsStreamingClient m), (Method.IsStreamingServer m);
    injection Hb as <-; simpl; unfold step; simpl; rewrite Hw; simpl;
    repeat match goal with
           | |- context [match ?e with Some _ => _ | None => _ end] => destruct e; simpl
           | |- context [if ?e then _ else _] => destruct e; simpl
           end; do 2 eexists; (split; reflexivity).
Qed.

(** C3.  Whatever the shape of the method, the adapter the generator
    writes for it, run with the field of the method unset, returns the
    error [status.Errorf(codes.Unimplemented, "method <GoName> not
    implemented")], and neither a handler nor the interceptor has been
    called when it returns. *)
Theorem adapter_unimplemented_when_field_nil (m : Method.t) (w : World) :
  namedMethod m = true ->
  fieldNil w (Method.GoName m) = true ->
  exists out tr,
    genMethodHandler m = Some out /\
    run w "s" out =
      Some (tr, Returns (Ret VNil (Some (Errorf (Ident codesPackage "Unimplemented")
                                                ("method " ++ Method.GoName m ++ " not implemented"))))) /\
    (forall f, ~ In (EvHandler f) tr) /\
    ~ In EvInterceptor tr.
Proof.
  intros Hn Hw. destruct (run_adapter_nil w m Hn Hw) as (out & Hout & Hrun).
  exists out, []. repeat split; auto.
Qed.

(** C10.  The nil check is the first statement of every adapter: the
    adapter is its header, the three lines of the check, the body
    [genHandlerBody] writes (which holds the decode call or the receive)
    and the closing brace.  Run with the field unset it returns the
    Unimplemented error with no call made at all: the decode callback has
    not run and no message has been received from the stream. *)
Theorem nil_check_precedes_request_processing (m : Method.t) (w : World) :
  namedMethod m = true ->
  fieldNil w (Method.GoName m) = true ->
  exists body,
    genHandlerBody m = Some body /\
    genMethodHandler m = Some (adapterHeader m :: nilGuard m ++ body ++ [[Str "}"]])%list /\
    run w "s" (adapterHeader m :: nilGuard m ++ body ++ [[Str "}"]])%list =
      Some ([], Returns (Ret VNil (Some (unimplemented m)))).
Proof.
  intros Hn Hw. destruct (genMethodHandler_shape m Hn) as (body & Hb & Hout).
  exists body. split; [exact Hb|]. split; [exact Hout|].
  destruct (run_adapter_nil w m Hn Hw) as (out & Hout' & Hrun).
  rewrite Hout in Hout'. injection Hout' as <-. exact Hrun.
Qed.

(** *** The client methods *)

(** C7.  The client method of a server-streaming method (client-streaming
    flag false) opens the stream, sends the request, closes the send side
    and only then returns the wrapper.  When the send fails, or the
    close, the method returns nil and that very error: the wrapper is not
    returned. *)
Theorem server_streaming_client_sends_then_closes (m : Method.t) (w : World) :
  namedMethod m = true ->
  Method.IsStreamingClient m = false ->
  Method.IsStreamingServer m = true ->
  exists out,
    genClientMethod m = Some out /\
    run w "c" out =
      Some (let opened := EvNewStream (streamDescName m) (sname m) in
            match newStreamErr w, sendErr w, closeSendErr w with
            | Some e, _, _ => ([opened], Returns (Ret VNil (Some (Failure e))))
            | None, Some e, _ => ([opened; EvSendMsg], Returns (Ret VNil (Some (Failure e))))
            | None, None, Some e =>
                ([opened; EvSendMsg; EvCloseSend], Returns (Ret VNil (Some (Failure e))))
            | None, None, None =>
                ([opened; EvSendMsg; EvCloseSend], Returns (Ret (VWrapper (clientStreamType m)) None))
            end).
Proof.
  intros Hn Hc Hs. apply namedMethod_inv in Hn as [_ Hp].
  unfold genClientMethod, genClientStreamTypes.
  rewrite (unexport_nonEmpty _ Hp), Hc, Hs.
  destruct (Method.Deprecated m); eexists; (split; [reflexivity|]);
    unfold run; simpl; unfold step; simpl;
    destruct (newStreamErr w), (sendErr w), (closeSendErr w); reflexivity.
Qed.

(** *** The stream wrapper types *)


(** C9.  In full mode the client method of every method, unary ones
    included, is preceded by the variable [<service><Method>StreamDesc]
    (the service name unexported).  For a unary method the literal holds
    the stream name alone, neither flag, and the method that follows
    never uses the variable: its one call is [Invoke] on the method path.
    The client method of a streaming method passes the variable to
    [NewStream]. *)
Theorem stream_descriptor_for_every_method (m : Method.t) (w : World) :
  namedMethod m = true ->
  exists body,
    let declaration : Line :=
      [Str "var "; Str (streamDescName m); Str " = &"; Id (Ident grpcPackage "StreamDesc"); Str "{"] in
    let header : Line :=
      [Str "func (c *"; Str (unexported (Parent.GoName (Method.Parent m))); Str "Client) ";
       Str (clientSignature m); Str "{"] in
    genClientMethod m =
      Some ((if Method.Deprecated m then [[Str deprecationComment]] else []) ++
            declaration ::
            [Str "StreamName: "; Str (Quote (Method.Name m)); Str ","] ::
            (if Method.IsStreamingServer m then [[Str "ServerStreams: true,"]] else []) ++
            (if Method.IsStreamingClient m then [[Str "ClientStreams: true,"]] else []) ++
            [Str "}"] :: header :: body)%list /\
    if Method.unary m then
      blockOf declaration (linesOf (genClientMethod m)) =
        Some [[Str "StreamName: "; Str (Quote (Method.Name m)); Str ","]] /\
      body = [ [Str "out := new("; Id (Method.Output m); Str ")"];
               [Str ("err := c.cc.Invoke(ctx, " ++ dq); Str (sname m); Str (dq ++ ", in, out, opts...)")];
               [Str "if err != nil { return nil, err }"];
               [Str "return out, nil"];
               [Str "}"];
               [] ] /\
      run w "c" (linesOf (genClientMethod m)) =
        Some ([EvInvoke (sname m)],
              Returns (match invokeErr w with
                       | Some e => Ret VNil (Some (Failure e))
                       | None => Ret VOut None
                       end))
    else
      hd_error body =
        Some [Str "stream, err := c.cc.NewStream(ctx, "; Str (streamDescName m); Str (", " ++ dq);
              Str (sname m); Str (dq ++ ", opts...)")].
Proof.
  intros Hn. apply namedMethod_inv in Hn as [_ Hp].
  unfold genClientMethod, genClientStreamTypes, Method.unary, streamDescName.
  rewrite (unexport_nonEmpty _ Hp). unfold blockOf, run.
  destruct (Method.IsStreamingClient m), (Method.IsStreamingServer m), (Method.Deprecated m);
    eexists; (split; [reflexivity|]);
    simpl; rewrite ?String.eqb_refl; simpl;
    try reflexivity;
    unfold step; simpl; destruct (invokeErr w); repeat split; reflexivity.
Qed.

(** *** Every builder returns on named input *)

Lemma namedService_inv (s : Service.t) :
  namedService s = true ->
  nonEmpty (Service.GoName s) = true /\
  forall m, In m (Service.Methods s) -> namedMethod m = true.
Proof.
  unfold namedService. intros H. apply andb_true_iff in H as [H1 H2].
  split; [exact H1|]. now apply forallb_forall.
Qed.

Lemma genClientMethod_returns (m : Method.t) :
  namedMethod m = true -> returns (genClientMethod m).
Proof.
  intros Hn. apply namedMethod_inv in Hn as [_ Hp].
  unfold genClientMethod, genClientStreamTypes. rewrite (unexport_nonEmpty _ Hp).
  destruct (negb (Method.IsStreamingServer m) && negb (Method.IsStreamingClient m));
    straight.
Qed.

Lemma genClient_returns (mode : bool) (s : Service.t) :
  namedService s = true -> returns (genClient mode s).
Proof.
  intros Hn. apply namedService_inv in Hn as [_ Hm].
  unfold genClient. destruct mode; [apply returns_skip|].
  rewrite (unexport_append (Service.GoName s) "Client" eq_refl).
  straight.
  - apply returns_forEach. intros m _. straight.
  - apply returns_forEach. intros m Hin. apply genClientMethod_returns, Hm, Hin.
Qed.

(** Takes a returned sequence apart, write after write. *)
Ltac unfold_sequence H :=
  match type of H with
  | (_ ;; _) = Some _ =>
      let x := fresh "x" in
      let y := fresh "y" in
      let Hx := fresh "Hx" in
      apply andThen_Some_inv in H as (x & y & Hx & H & ->); unfold_sequence H
  | _ => idtac
  end.

(** In full mode the client stub of a service ends with the client
    methods of its methods, in the order of the service. *)
Lemma genClient_writes_client_methods (s : Service.t) :
  namedService s = true ->
  exists head,
    genClient false s =
    Some (head ++ flat_map (fun m => linesOf (genClientMethod m)) (Service.Methods s))%list.
Proof.
  intros Hn. destruct (genClient_returns false s Hn) as [out Hout]. rewrite Hout.
  apply namedService_inv in Hn as [_ Hm].
  unfold genClient in Hout.
  rewrite (unexport_append (Service.GoName s) "Client" eq_refl) in Hout.
  unfold_sequence Hout.
  rewrite forEach_linesOf in Hout
    by (intros m Hin; apply genClientMethod_returns, Hm, Hin).
  injection Hout as <-.
  eexists. rewrite !app_assoc. reflexivity.
Qed.

Lemma genMethodHandler_returns (m : Method.t) :
  namedMethod m = true -> returns (genMethodHandler m).
Proof. intros Hn. destruct (genMethodHandler_shape m Hn) as (body & _ & ->). eexists; reflexivity. Qed.

Lemma genServerStreamTypes_returns (mode : bool) (m : Method.t) :
  namedMethod m = true -> returns (genServerStreamTypes mode m).
Proof.
  intros Hn. apply namedMethod_inv in Hn as [_ Hp].
  unfold genServerStreamTypes. rewrite (unexport_nonEmpty _ Hp).
  destruct mode; [apply returns_skip|].
  destruct (negb (Method.IsStreamingClient m) && negb (Method.IsStreamingServer m));
    straight.
Qed.

Lemma genServiceStruct_returns (s : Service.t) : returns (genServiceStruct s).
Proof.
  unfold genServiceStruct. straight.
  apply returns_forEach. intros m _. straight.
Qed.

Lemma genRegisterFunction_returns (file : File.t) (s : Service.t) :
  namedService s = true -> returns (genRegisterFunction file s).
Proof.
  intros Hn. apply namedService_inv in Hn as [_ Hm]. unfold genRegisterFunction.
  straight;
    apply returns_forEach; intros m Hin;
    destruct (namedMethod_inv m (Hm m Hin)) as [Hg _];
    rewrite (unexport_nonEmpty _ Hg);
    match goal with |- returns (if ?c then _ else _) => destruct c end; straight.
Qed.

Lemma genServiceConstructor_returns (s : Service.t) : returns (genServiceConstructor s).
Proof.
  unfold genServiceConstructor. straight.
  apply returns_forEach. intros m _. straight.
Qed.

Lemma genUnstableServiceInterface_returns (s : Service.t) : returns (genUnstableServiceInterface s).
Proof.
  unfold genUnstableServiceInterface. straight.
  apply returns_forEach. intros m _. straight.
Qed.

Lemma genDispatch_returns (mode : bool) (s : Service.t) :
  namedService s = true -> returns (genDispatch mode s).
Proof.
  intros Hn. pose proof (namedService_inv s Hn) as [_ Hm]. unfold genDispatch.
  apply returns_andThen; [apply genServiceStruct_returns|].
  apply returns_andThen; apply returns_forEach; intros m Hin.
  - apply genMethodHandler_returns, Hm, Hin.
  - apply genServerStreamTypes_returns, Hm, Hin.
Qed.

Lemma genService_parts (mode : bool) (file : File.t) (s : Service.t) :
  genService mode file s =
  (genDispatch mode s ;; genRegisterFunction file s ;; genServiceConstructor s).
Proof. unfold genService, genDispatch. now rewrite !andThen_assoc. Qed.

Lemma flat_map_nil {A B : Type} (l : list A) : flat_map (fun _ : A => @nil B) l = [].
Proof. induction l; simpl; auto. Qed.

Lemma flat_map_ext_In {A B : Type} (f g : A -> list B) (l : list A) :
  (forall a, In a l -> f a = g a) -> flat_map f l = flat_map g l.
Proof.
  induction l as [|a l IH]; intros H; simpl; [reflexivity|].
  rewrite (H a (or_introl eq_refl)), IH by (intros b Hb; apply H; now right).
  reflexivity.
Qed.

Lemma genDispatch_lines (mode : bool) (s : Service.t) :
  namedService s = true ->
  linesOf (genDispatch mode s) =
  (linesOf (genServiceStruct s) ++ adapters s ++ serverStreamTypes mode s)%list.
Proof.
  intros Hn. pose proof (namedService_inv s Hn) as [_ Hm].
  unfold genDispatch, adapters, serverStreamTypes.
  rewrite (forEach_linesOf _ genMethodHandler)
    by (intros m Hin; apply genMethodHandler_returns, Hm, Hin).
  rewrite (forEach_linesOf _ (genServerStreamTypes mode))
    by (intros m Hin; apply genServerStreamTypes_returns, Hm, Hin).
  destruct (genServiceStruct_returns s) as [x ->]. reflexivity.
Qed.

Lemma serverStreamTypes_migration (s : Service.t) : serverStreamTypes true s = [].
Proof. unfold serverStreamTypes. simpl. apply flat_map_nil. Qed.

Lemma namedFile_inv (file : File.t) :
  namedFile file = true -> forall s, In s (File.Services file) -> namedService s = true.
Proof. unfold namedFile. intros H. now apply forallb_forall. Qed.

Lemma service_lines (mode : bool) (file : File.t) (s : Service.t) :
  namedService s = true ->
  (genClient mode s ;; genService mode file s ;; genUnstableServiceInterface s) =
  Some (linesOf (genClient mode s) ++ linesOf (genDispatch mode s) ++
        linesOf (genRegisterFunction file s) ++ linesOf (genServiceConstructor s) ++
        linesOf (genUnstableServiceInterface s))%list.
Proof.
  intros Hn. rewrite genService_parts.
  destruct (genClient_returns mode s Hn) as [a ->].
  destruct (genDispatch_returns mode s Hn) as [b ->].
  destruct (genRegisterFunction_returns file s Hn) as [c ->].
  destruct (genServiceConstructor_returns s) as [d ->].
  destruct (genUnstableServiceInterface_returns s) as [e ->].
  simpl. now rewrite <- !app_assoc.
Qed.

Lemma generateFileContent_lines (mode : bool) (file : File.t) :
  namedFile file = true ->
  generateFileContent mode file =
  Some ((match File.Services file with [] => [] | _ :: _ => preamble end) ++
        flat_map (fun s =>
                    linesOf (genClient mode s) ++ linesOf (genDispatch mode s) ++
                    linesOf (genRegisterFunction file s) ++ linesOf (genServiceConstructor s) ++
                    linesOf (genUnstableServiceInterface s))
                 (File.Services file))%list.
Proof.
  intros Hn. pose proof (namedFile_inv file Hn) as Hs.
  unfold generateFileContent.
  rewrite (forEach_Some _ _ (fun s =>
             linesOf (genClient mode s) ++ linesOf (genDispatch mode s) ++
             linesOf (genRegisterFunction file s) ++ linesOf (genServiceConstructor s) ++
             linesOf (genUnstableServiceInterface s))%list)
    by (intros s Hin; apply service_lines, Hs, Hin).
  destruct (File.Services file); reflexivity.
Qed.

(** *** The order of the builders *)

(** C5, as the code has it.  For every service the builders write in the
    order client stub, server dispatch (struct, adapters, stream types),
    registration function, service constructor, unstable interface; the
    output of a file is the preamble followed by these five parts for each
    service in turn. *)
Theorem builders_write_in_source_order (mode : bool) (file : File.t) :
  namedFile file = true ->
  generateFileContent mode file =
    Some ((match File.Services file with [] => [] | _ :: _ => preamble end) ++
          flat_map (fun s =>
                      linesOf (genClient mode s) ++ linesOf (genDispatch mode s) ++
                      linesOf (genRegisterFunction file s) ++ linesOf (genServiceConstructor s) ++
                      linesOf (genUnstableServiceInterface s))
                   (File.Services file))%list /\
  forall s, In s (File.Services file) ->
    returns (genClient mode s) /\ returns (genDispatch mode s) /\
    returns (genRegisterFunction file s) /\ returns (genServiceConstructor s) /\
    returns (genUnstableServiceInterface s).
Proof.
  intros Hn. split; [now apply generateFileContent_lines|].
  intros s Hin. pose proof (namedFile_inv file Hn s Hin) as Hs.
  repeat split.
  - now apply genClient_returns.
  - now apply genDispatch_returns.
  - now apply genRegisterFunction_returns.
  - apply genServiceConstructor_returns.
  - apply genUnstableServiceInterface_returns.
Qed.

(** *** Migration mode *)

(** With one qualifier at hand: [genClient] and [genServerStreamTypes]
    write nothing in migration mode, the migration output of a file is
    the preamble and the server side of each service, and the full
    output has the same lines with the client stub before them and the
    server stream types after the adapters. *)
Lemma lines_written_in_each_mode (file : File.t) :
  namedFile file = true ->
  (forall s, genClient true s = Some []) /\
  (forall m, genServerStreamTypes true m = Some []) /\
  generateFileContent true file =
    Some ((match File.Services file with [] => [] | _ :: _ => preamble end) ++
          flat_map (fun s =>
                      linesOf (genServiceStruct s) ++ adapters s ++
                      linesOf (genRegisterFunction file s) ++ linesOf (genServiceConstructor s) ++
                      linesOf (genUnstableServiceInterface s))
                   (File.Services file))%list /\
  generateFileContent false file =
    Some ((match File.Services file with [] => [] | _ :: _ => preamble end) ++
          flat_map (fun s =>
                      linesOf (genClient false s) ++
                      linesOf (genServiceStruct s) ++ adapters s ++
                      serverStreamTypes false s ++
                      linesOf (genRegisterFunction file s) ++ linesOf (genServiceConstructor s) ++
                      linesOf (genUnstableServiceInterface s))
                   (File.Services file))%list.
Proof.
  intros Hn. pose proof (namedFile_inv file Hn) as Hs.
  split; [reflexivity|]. split; [reflexivity|].
  rewrite !generateFileContent_lines by assumption.
  split; f_equal; f_equal; apply flat_map_ext_In; intros s Hin;
    rewrite (genDispatch_lines _ s (Hs s Hin)).
  - rewrite serverStreamTypes_migration, app_nil_r. simpl. now rewrite <- !app_assoc.
  - now rewrite <- !app_assoc.
Qed.

(** *** The registration function *)

Lemma readEntries_methods (ms : list Method.t) (acc : list Entry) (rest : list Line) :
  readEntries "MethodName: " false (flat_map methodEntryLines ms ++ [Str "},"] :: rest)%list None acc =
  Some ((rev acc ++ map entryOf (filter Method.unary ms))%list, rest).
Proof.
  revert acc. induction ms as [|m ms IH]; intros acc; simpl.
  - now rewrite app_nil_r.
  - unfold methodEntryLines, Method.unary, entryOf at 1.
    destruct (Method.IsStreamingClient m) eqn:Hc, (Method.IsStreamingServer m) eqn:Hs; simpl;
      rewrite IH; simpl; rewrite <- ?app_assoc; simpl; unfold entryOf, Method.unary;
      rewrite ?Hc, ?Hs; reflexivity.
Qed.

Lemma readEntries_streams (ms : list Method.t) (acc : list Entry) (rest : list Line) :
  readEntries "StreamName: " true (flat_map streamEntryLines ms ++ [Str "},"] :: rest)%list None acc =
  Some ((rev acc ++ map entryOf (filter streaming ms))%list, rest).
Proof.
  revert acc. induction ms as [|m ms IH]; intros acc; simpl.
  - now rewrite app_nil_r.
  - unfold streamEntryLines, streaming.
    destruct (Method.IsStreamingClient m) eqn:Hc, (Method.IsStreamingServer m) eqn:Hs; simpl;
      rewrite IH; simpl; rewrite <- ?app_assoc; simpl; unfold entryOf, streaming;
      rewrite ?Hc, ?Hs; reflexivity.
Qed.

Lemma genRegisterFunction_shape (file : File.t) (s : Service.t) :
  namedService s = true ->
  genRegisterFunction file s =
  Some ([Str "// Register"; Str (Service.GoName s);
         Str "Service registers a service implementation with a gRPC server."] ::
        (if Service.Deprecated s then [[Str "//"]; [Str deprecationComment]] else []) ++
        [Str "func Register"; Str (Service.GoName s); Str "Service(s "; Id (Ident grpcPackage "ServiceRegistrar");
         Str ", srv *"; Str (Service.GoName s); Str "Service) {"] ::
        [Str "sd := "; Id (Ident grpcPackage "ServiceDesc"); Str " {"] ::
        [Str "ServiceName: "; Str (Quote (Service.FullName s)); Str ","] ::
        [Str "Methods: []"; Id (Ident grpcPackage "MethodDesc"); Str "{"] ::
        flat_map methodEntryLines (Service.Methods s) ++
        [Str "},"] ::
        [Str "Streams: []"; Id (Ident grpcPackage "StreamDesc"); Str "{"] ::
        flat_map streamEntryLines (Service.Methods s) ++
        [Str "},"] ::
        [Str ("Metadata: " ++ dq); Str (File.Path file); Str (dq ++ ",")] ::
        [Str "}"] ::
        [] ::
        [Str "s.RegisterService(&sd, nil)"] ::
        [Str "}"] ::
        [[]])%list.
Proof.
  intros Hn. apply namedService_inv in Hn as [_ Hm]. unfold genRegisterFunction.
  rewrite (forEach_Some (Service.Methods s) _ methodEntryLines).
  2:{ intros m Hin. destruct (namedMethod_inv m (Hm m Hin)) as [Hg _].
      rewrite (unexport_nonEmpty _ Hg). unfold methodEntryLines.
      destruct (Method.IsStreamingClient m || Method.IsStreamingServer m); reflexivity. }
  rewrite (forEach_Some (Service.Methods s) _ streamEntryLines).
  2:{ intros m Hin. destruct (namedMethod_inv m (Hm m Hin)) as [Hg _].
      rewrite (unexport_nonEmpty _ Hg). unfold streamEntryLines.
      destruct (Method.IsStreamingClient m), (Method.IsStreamingServer m); reflexivity. }
  destruct (Service.Deprecated s); simpl; rewrite <- ?app_assoc; reflexivity.
Qed.

(** C6.  The descriptor the registration function declares holds the
    full name of the service; in [Methods] one entry, name and adapter,
    for each method with both streaming flags false, in the order of the
    service; in [Streams] one entry for each method with a streaming flag
    set, in the same order, whose [ServerStreams] and [ClientStreams]
    are the flags of the method; and the path of the description file as
    [Metadata].  The statement after the declaration hands the descriptor
    to the registrar with a nil implementation. *)
Theorem registration_descriptor (file : File.t) (s : Service.t) :
  namedService s = true ->
  exists out,
    genRegisterFunction file s = Some out /\
    readServiceDesc out =
      Some ({| ServiceName := Quote (Service.FullName s);
               Methods := map entryOf (filter (fun m => negb (Method.IsStreamingClient m)
                                                       && negb (Method.IsStreamingServer m))
                                              (Service.Methods s));
               Streams := map entryOf (filter (fun m => Method.IsStreamingClient m
                                                       || Method.IsStreamingServer m)
                                              (Service.Methods s));
               Metadata := File.Path file |},
            [ []; [Str "s.RegisterService(&sd, nil)"]; [Str "}"]; [] ]) /\
    Forall (fun e => ServerStreams e = false /\ ClientStreams e = false)
           (map entryOf (filter (fun m => negb (Method.IsStreamingClient m)
                                          && negb (Method.IsStreamingServer m))
                                (Service.Methods s))) /\
    forall m, In m (Service.Methods s) ->
      hd_error (linesOf (genMethodHandler m)) = Some (adapterHeader m).
Proof.
  intros Hn. rewrite (genRegisterFunction_shape file s Hn).
  eexists. split; [reflexivity|]. split; [|split].
  - unfold readServiceDesc.
    destruct (Service.Deprecated s); simpl;
      rewrite readEntries_methods; simpl;
      rewrite readEntries_streams; reflexivity.
  - apply Forall_forall. intros e He. apply in_map_iff in He as (m & <- & Hin).
    apply filter_In in Hin as [_ Hf]. apply andb_true_iff in Hf as [Hc Hs].
    apply negb_true_iff in Hc, Hs. simpl. now rewrite Hc, Hs.
  - intros m Hin. apply namedService_inv in Hn as [_ Hm].
    destruct (genMethodHandler_shape m (Hm m Hin)) as (body & _ & ->). reflexivity.
Qed.

(** *** The unexported form of a name *)

(** A method without a Go name makes the generator panic. *)
Lemma genMethodHandler_panics_on_empty_name (m : Method.t) :
  Method.GoName m = EmptyString -> genMethodHandler m = None.
Proof.
  intros H. unfold genMethodHandler. rewrite H.
  destruct (negb (Method.IsStreamingClient m) && negb (Method.IsStreamingServer m)); reflexivity.
Qed.

(** C8.  [unexport] panics on the empty string and on no other; on a
    string with first byte [c] it returns the lower-cased [c] followed by
    the rest of the string as it is.  The names the generator passes to
    it are service and method names: on a file whose names are not empty
    no call panics, and the generator returns its output. *)
Theorem unexport_defined_on_names (s : string) (mode : bool) (file : File.t) :
  namedFile file = true ->
  unexport s = match s with
               | EmptyString => None
               | String c rest => Some (ToLower (String c EmptyString) ++ rest)
               end /\
  (unexport s = None <-> s = EmptyString) /\
  returns (generateFileContent mode file) /\
  exists result, generateFile mode file = Some result.
Proof.
  intros Hn. split; [reflexivity|]. split; [|split].
  - destruct s; simpl; split; intros H; try reflexivity; discriminate.
  - rewrite (generateFileContent_lines mode file Hn). eexists; reflexivity.
  - unfold generateFile. rewrite (generateFileContent_lines mode file Hn).
    destruct (Nat.eqb (List.length (File.Services file)) 0); eexists; reflexivity.
Qed.

(** *** The method path *)

(** The client stub of a unary method calls the path built from the name
    of the method in the description file; the adapter gives the
    interceptor the path built from the Go name of the method. *)
Lemma unary_method_paths (m : Method.t) :
  namedMethod m = true ->
  Method.unary m = true ->
  In [Str ("err := c.cc.Invoke(ctx, " ++ dq);
      Str (Sprintf_path (Parent.FullName (Method.Parent m)) (Method.Name m));
      Str (dq ++ ", in, out, opts...)")]
     (linesOf (genClientMethod m)) /\
  In [Str "FullMethod: ";
      Str (Quote (Sprintf_path (Parent.FullName (Method.Parent m)) (Method.GoName m)));
      Str ","]
     (linesOf (genMethodHandler m)).
Proof.
  intros Hn Hu. destruct (genMethodHandler_shape m Hn) as (body & Hb & ->).
  apply namedMethod_inv in Hn as [_ Hp].
  unfold genHandlerBody in Hb. unfold genClientMethod.
  rewrite (unexport_nonEmpty _ Hp) in *.
  unfold Method.unary in Hu. apply andb_true_iff in Hu as [Hc Hs].
  apply negb_true_iff in Hc, Hs. rewrite Hc, Hs in *. simpl in Hb. injection Hb as <-.
  unfold sname. split.
  - destruct (Method.Deprecated m); simpl; tauto.
  - simpl. tauto.
Qed.

(** C4, on the method [rpc get_feature(Point) returns (Feature)] of
    [routeguide.RouteGuide].  The client stub calls
    [/routeguide.RouteGuide/get_feature], the adapter reports
    [/routeguide.RouteGuide/GetFeature] as [FullMethod]: the two paths
    differ. *)
Theorem full_method_built_from_go_name :
  In [Str ("err := c.cc.Invoke(ctx, " ++ dq);
      Str "/routeguide.RouteGuide/get_feature";
      Str (dq ++ ", in, out, opts...)")]
     (linesOf (genClientMethod get_feature)) /\
  In [Str "FullMethod: "; Str (Quote "/routeguide.RouteGuide/GetFeature"); Str ","]
     (linesOf (genMethodHandler get_feature)) /\
  Sprintf_path (Parent.FullName (Method.Parent get_feature)) (Method.GoName get_feature) <>
  sname get_feature.
Proof.
  destruct (unary_method_paths get_feature eq_refl eq_refl) as [H1 H2].
  split; [exact H1|]. split; [exact H2|]. discriminate.
Qed.

(** ** Further properties of the generated code *)

(** *** The adapters with the field set *)

(** X1.  The adapter of a unary method whose field is set decodes the
    request first.  A failing decode is returned as it is, with nil, and
    the handler is not called.  After a successful decode the adapter
    calls the handler itself when there is no interceptor, and otherwise
    hands over to the interceptor without calling the handler. *)
Theorem unary_adapter_decodes_then_dispatches (m : Method.t) (w : World) :
  namedMethod m = true ->
  Method.unary m = true ->
  fieldNil w (Method.GoName m) = false ->
  exists out,
    genMethodHandler m = Some out /\
    run w "s" out =
      Some (match decErr w with
            | Some e => ([EvDec], Returns (Ret VNil (Some (Failure e))))
            | None =>
                if interceptorNil w
                then ([EvDec; EvHandler (Method.GoName m)], Returns (RetHandler (Method.GoName m)))
                else ([EvDec; EvInterceptor], Returns RetInterceptor)
            end).
Proof.
  intros Hn Hu Hw. destruct (genMethodHandler_shape m Hn) as (body & Hb & Hout).
  rewrite Hout. eexists. split; [reflexivity|].
  unfold run. rewrite linesAfter_head by reflexivity.
  unfold genHandlerBody in Hb. unfold nilGuard. rewrite Hu.
  unfold Method.unary in Hu. apply andb_true_iff in Hu as [Hc Hs].
  rewrite Hc, Hs in Hb. simpl in Hb. injection Hb as <-.
  simpl. unfold step. simpl. rewrite Hw. simpl.
  destruct (decErr w); simpl; [reflexivity|].
  destruct (interceptorNil w); reflexivity.
Qed.

(** X2.  The adapter of a streaming method whose field is set: when the
    method is client streaming (bidirectional included) it calls the
    handler at once and receives nothing; otherwise it first receives the
    request from the stream, returns a failure of that receive as it is
    without calling the handler, and calls the handler after a
    successful receive. *)
Theorem streaming_adapter_receives_only_without_client_stream (m : Method.t) (w : World) :
  namedMethod m = true ->
  Method.unary m = false ->
  fieldNil w (Method.GoName m) = false ->
  exists out,
    genMethodHandler m = Some out /\
    run w "s" out =
      Some (if Method.IsStreamingClient m
            then ([EvHandler (Method.GoName m)], Returns (RetHandler (Method.GoName m)))
            else match recvErr w with
                 | Some e => ([EvRecvMsg], Returns (Ret VNil (Some (Failure e))))
                 | None => ([EvRecvMsg; EvHandler (Method.GoName m)],
                            Returns (RetHandler (Method.GoName m)))
                 end).
Proof.
  intros Hn Hu Hw. destruct (genMethodHandler_shape m Hn) as (body & Hb & Hout).
  rewrite Hout. eexists. split; [reflexivity|].
  unfold run. rewrite linesAfter_head by reflexivity.
  apply namedMethod_inv in Hn as [_ Hp].
  unfold genHandlerBody in Hb. rewrite (unexport_nonEmpty _ Hp) in Hb.
  unfold nilGuard. rewrite Hu. unfold Method.unary in Hu.
  destruct (Method.IsStreamingClient m), (Method.IsStreamingServer m);
    try discriminate Hu; simpl in Hb; injection Hb as <-;
    simpl; unfold step; simpl; rewrite Hw; simpl;
    try reflexivity; destruct (recvErr w); reflexivity.
Qed.

(** *** The client method of a client-streaming method *)

(** X3.  The client method of a client-streaming method (bidirectional
    included) only opens the stream: it sends nothing and does not close
    the send side.  It returns the wrapper when the stream opened, and
    nil with the error of [NewStream] otherwise. *)
Theorem client_streaming_client_only_opens (m : Method.t) (w : World) :
  namedMethod m = true ->
  Method.IsStreamingClient m = true ->
  exists out,
    genClientMethod m = Some out /\
    run w "c" out =
      Some ([EvNewStream (streamDescName m) (sname m)],
            Returns (match newStreamErr w with
                     | Some e => Ret VNil (Some (Failure e))
                     | None => Ret (VWrapper (clientStreamType m)) None
                     end)).
Proof.
  intros Hn Hc. apply namedMethod_inv in Hn as [_ Hp].
  unfold genClientMethod, genClientStreamTypes.
  rewrite (unexport_nonEmpty _ Hp), Hc.
  destruct (Method.IsStreamingServer m), (Method.Deprecated m); eexists;
    (split; [reflexivity|]);
    unfold run; simpl; unfold step; simpl;
    destruct (newStreamErr w); reflexivity.
Qed.

(** *** The methods of the stream wrappers *)

(** X4.  The methods of the client stream wrapper.  [Send] forwards to
    [SendMsg] and returns its result.  [Recv] receives one message and
    returns it, or nil and the error of the receive.  [CloseAndRecv]
    closes the send side before it receives: when the close fails it
    returns that error and receives nothing. *)
Theorem client_wrapper_methods (m : Method.t) (w : World) :
  namedMethod m = true ->
  Method.unary m = false ->
  exists out,
    genClientMethod m = Some out /\
    (Method.IsStreamingClient m = true ->
       runWrapper w "ClientStream" (clientStreamType m) "Send" out =
         Some ([EvSendMsg], Sent (sendErr w))) /\
    (Method.IsStreamingServer m = true ->
       runWrapper w "ClientStream" (clientStreamType m) "Recv" out =
         Some ([EvRecvMsg], match recvErr w with
                            | Some e => NotReceived e
                            | None => Received
                            end)) /\
    (Method.IsStreamingServer m = false ->
       runWrapper w "ClientStream" (clientStreamType m) "CloseAndRecv" out =
         Some (match closeSendErr w, recvErr w with
               | Some e, _ => ([EvCloseSend], NotReceived e)
               | None, Some e => ([EvCloseSend; EvRecvMsg], NotReceived e)
               | None, None => ([EvCloseSend; EvRecvMsg], Received)
               end)).
Proof.
  intros Hn Hu. apply namedMethod_inv in Hn as [_ Hp].
  unfold genClientMethod, genClientStreamTypes, runWrapper, clientStreamType.
  rewrite (unexport_nonEmpty _ Hp). unfold Method.unary in Hu.
  destruct (Method.IsStreamingClient m), (Method.IsStreamingServer m), (Method.Deprecated m);
    try discriminate Hu; eexists; (split; [reflexivity|]);
    (split; [|split]); intros H; try discriminate H;
    simpl; rewrite ?String.eqb_refl; simpl;
    destruct (closeSendErr w), (recvErr w); reflexivity.
Qed.

(** X5.  The methods of the server stream wrapper.  [Send] and
    [SendAndClose] both forward to [SendMsg] and return its result:
    [SendAndClose] makes no other call, it closes nothing itself.
    [Recv] receives one message and returns it, or nil and the error of
    the receive. *)
Theorem server_wrapper_methods (m : Method.t) (w : World) :
  namedMethod m = true ->
  Method.unary m = false ->
  exists out,
    genServerStreamTypes false m = Some out /\
    (Method.IsStreamingServer m = true ->
       runWrapper w "ServerStream" (serverStreamType m) "Send" out =
         Some ([EvSendMsg], Sent (sendErr w))) /\
    (Method.IsStreamingServer m = false ->
       runWrapper w "ServerStream" (serverStreamType m) "SendAndClose" out =
         Some ([EvSendMsg], Sent (sendErr w))) /\
    (Method.IsStreamingClient m = true ->
       runWrapper w "ServerStream" (serverStreamType m) "Recv" out =
         Some ([EvRecvMsg], match recvErr w with
                            | Some e => NotReceived e
                            | None => Received
                            end)).
Proof.
  intros Hn Hu. apply namedMethod_inv in Hn as [_ Hp].
  unfold genServerStreamTypes, runWrapper, serverStreamType.
  rewrite (unexport_nonEmpty _ Hp). unfold Method.unary in Hu.
  destruct (Method.IsStreamingClient m), (Method.IsStreamingServer m);
    try discriminate Hu; eexists; (split; [reflexivity|]);
    (split; [|split]); intros H; try discriminate H;
    simpl; rewrite ?String.eqb_refl; simpl;
    destruct (recvErr w); reflexivity.
Qed.

(** *** The listings of the methods *)

Lemma Line_eqb_refl (l : Line) : Line_eqb l l = true.
Proof.
  induction l as [|a l IH]; simpl; [reflexivity|]. rewrite IH.
  destruct a as [x|[n p]|x]; simpl; unfold GoIdent.eqb; simpl; now rewrite ?String.eqb_refl.
Qed.

Lemma linesUntil_closing (body rest : list Line) :
  Forall (fun l => Line_eqb [Str "}"] l = false) body ->
  linesUntil (Line_eqb [Str "}"]) (body ++ [Str "}"] :: rest)%list = body.
Proof.
  induction 1 as [|l body Hl _ IH]; cbn [linesUntil app].
  - now rewrite Line_eqb_refl.
  - now rewrite Hl, IH.
Qed.

Lemma blockOf_found (header : Line) (pre body rest : list Line) :
  Forall (fun l => Line_eqb header l = false) pre ->
  Forall (fun l => Line_eqb [Str "}"] l = false) body ->
  blockOf header (pre ++ header :: body ++ [Str "}"] :: rest)%list = Some body.
Proof.
  intros Hpre Hbody. unfold blockOf.
  assert (linesAfter (Line_eqb header) (pre ++ header :: body ++ [Str "}"] :: rest)%list
          = Some (body ++ [Str "}"] :: rest)%list) as ->.
  { induction Hpre as [|l pre Hl _ IH]; cbn [linesAfter app].
    - now rewrite Line_eqb_refl.
    - now rewrite Hl. }
  now rewrite linesUntil_closing.
Qed.

Lemma listing_never_closes (signature : Method.t -> string) (ms : list Method.t) :
  Forall (fun l => Line_eqb [Str "}"] l = false) (listing signature ms).
Proof.
  unfold listing. induction ms as [|m ms IH]; simpl; [constructor|].
  destruct (Method.Deprecated m); simpl; repeat constructor; exact IH.
Qed.

Lemma listing_entries (signature : Method.t -> string) (ms : list Method.t) :
  filter isEntry (listing signature ms) =
  map (fun m => [Cmt (Method.Leading m); Str (signature m)]) ms.
Proof.
  unfold listing. induction ms as [|m ms IH]; simpl; [reflexivity|].
  destruct (Method.Deprecated m); simpl; now rewrite IH.
Qed.

Lemma forEach_listing (signature : Method.t -> string) (ms : list Method.t) :
  forEach ms (fun method =>
                when (Method.Deprecated method) (P [Str deprecationComment]) ;;
                P [Cmt (Method.Leading method); Str (signature method)]) =
  Some (listing signature ms).
Proof.
  unfold listing. apply forEach_Some. intros m _.
  destruct (Method.Deprecated m); reflexivity.
Qed.

(** X6.  The client interface, the server struct and the unstable
    interface of a service each list its methods one entry a method, in
    the order of the service: the client signature, the handler field,
    the method signature.  In all three a deprecated method has the
    deprecation notice on the line before its entry, and no other method
    has one. *)
Theorem method_listings (s : Service.t) :
  namedService s = true ->
  exists client,
    genClient false s = Some client /\
    blockOf [Str "type "; Str (Service.GoName s ++ "Client"); Str " interface {"] client =
      Some (listing clientSignature (Service.Methods s)) /\
    blockOf [Str "type "; Str (Service.GoName s ++ "Service"); Str " struct {"]
            (linesOf (genServiceStruct s)) =
      Some (listing handlerSignature (Service.Methods s)) /\
    blockOf [Str "type Unstable"; Str (Service.GoName s ++ "Service"); Str " interface {"]
            (linesOf (genUnstableServiceInterface s)) =
      Some (listing methodSignature (Service.Methods s)) /\
    forall signature,
      filter isEntry (listing signature (Service.Methods s)) =
      map (fun m => [Cmt (Method.Leading m); Str (signature m)]) (Service.Methods s).
Proof.
  intros Hn. destruct (genClient_returns false s Hn) as [out Hout]. rewrite Hout.
  exists out. split; [reflexivity|]. split; [|split; [|split]].
  - unfold genClient in Hout.
    rewrite (unexport_append (Service.GoName s) "Client" eq_refl), forEach_listing in Hout.
    destruct (forEach (Service.Methods s) genClientMethod) as [tail|]; [|
      destruct (Service.Deprecated s); discriminate Hout].
    destruct (Service.Deprecated s); simpl in Hout; injection Hout as <-.
    + apply (blockOf_found _ [_; _; _; _; _]); [|apply listing_never_closes].
      repeat constructor.
    + apply (blockOf_found _ [_; _; _]); [|apply listing_never_closes].
      repeat constructor.
  - unfold genServiceStruct. rewrite forEach_listing.
    destruct (Service.Deprecated s); simpl.
    + apply (blockOf_found _ [_; _; _; _; _; _]); [|apply listing_never_closes].
      repeat constructor.
    + apply (blockOf_found _ [_; _; _; _]); [|apply listing_never_closes].
      repeat constructor.
  - unfold genUnstableServiceInterface. rewrite forEach_listing.
    destruct (Service.Deprecated s); simpl.
    + apply (blockOf_found _ [_; _; _; _; _; _]); [|apply listing_never_closes].
      repeat constructor.
    + apply (blockOf_found _ [_; _; _; _]); [|apply listing_never_closes].
      repeat constructor.
  - intros signature. apply listing_entries.
Qed.

(** *** The service constructor *)

Lemma readAssignments_blocks (ms : list Method.t) (rest : list Line) :
  readAssignments None
    (flat_map (fun method =>
                 [ [Str "if h, ok := s.(interface {"; Str (methodSignature method); Str "}); ok {"];
                   [Str "ns."; Str (Method.GoName method); Str " = h."; Str (Method.GoName method)];
                   [Str "}"] ]) ms ++ rest)%list =
  (map (fun m => (methodSignature m, Method.GoName m, Method.GoName m)) ms ++
   readAssignments None rest)%list.
Proof. induction ms as [|m ms IH]; simpl; [reflexivity|]. now rewrite IH. Qed.

(** X7.  The service constructor attempts one assignment a method, in
    the order of the service: it asserts of its argument the very
    signature the unstable interface lists for the method, and on
    success assigns that method value to the field of the method.  The
    field has the type [func] followed by the parameters and results of
    that same signature. *)
Theorem constructor_assigns_every_method (s : Service.t) :
  exists out,
    genServiceConstructor s = Some out /\
    readAssignments None out =
      map (fun m => (methodSignature m, Method.GoName m, Method.GoName m)) (Service.Methods s) /\
    filter isEntry (linesOf (genUnstableServiceInterface s)) =
      map (fun m => [Cmt (Method.Leading m); Str (methodSignature m)]) (Service.Methods s) /\
    forall m, exists parameters,
      methodSignature m = Method.GoName m ++ parameters /\
      handlerSignature m = Method.GoName m ++ " func" ++ parameters.
Proof.
  unfold genServiceConstructor.
  rewrite (forEach_Some _ _ (fun method =>
             [ [Str "if h, ok := s.(interface {"; Str (methodSignature method); Str "}); ok {"];
               [Str "ns."; Str (Method.GoName method); Str " = h."; Str (Method.GoName method)];
               [Str "}"] ])) by reflexivity.
  eexists. split; [reflexivity|]. split; [|split].
  - simpl. rewrite readAssignments_blocks. simpl. apply app_nil_r.
  - unfold genUnstableServiceInterface. rewrite forEach_listing.
    destruct (Service.Deprecated s); simpl;
      rewrite filter_app, listing_entries; simpl; apply app_nil_r.
  - intros m. unfold methodSignature, handlerSignature.
    destruct (signatureParts m) as [reqArgs ret].
    exists ("(" ++ Join reqArgs ", " ++ ") " ++ ret). split; reflexivity.
Qed.

(** *** The registration of the methods *)

Lemma filter_partition_Permutation {A : Type} (f : A -> bool) (l : list A) :
  Permutation (filter f l ++ filter (fun a => negb (f a)) l) l.
Proof.
  induction l as [|a l IH]; simpl; [constructor|].
  destruct (f a); simpl.
  - now constructor.
  - apply Permutation_sym, Permutation_cons_app, Permutation_sym, IH.
Qed.

(** X8.  Every method of a service is registered exactly once: the
    entries of [Methods] followed by those of [Streams] are, up to their
    order, the entries of the methods of the service. *)
Theorem every_method_registered_once (file : File.t) (s : Service.t) :
  namedService s = true ->
  exists out sd rest,
    genRegisterFunction file s = Some out /\
    readServiceDesc out = Some (sd, rest) /\
    Permutation (Methods sd ++ Streams sd) (map entryOf (Service.Methods s)) /\
    List.length (Methods sd) + List.length (Streams sd) = List.length (Service.Methods s).
Proof.
  intros Hn. rewrite (genRegisterFunction_shape file s Hn).
  assert (Permutation
            (map entryOf (filter Method.unary (Service.Methods s)) ++
             map entryOf (filter streaming (Service.Methods s)))
            (map entryOf (Service.Methods s))) as Hperm.
  { rewrite <- map_app. apply Permutation_map.
    rewrite (filter_ext streaming (fun m => negb (Method.unary m))).
    - apply filter_partition_Permutation.
    - intros m. unfold streaming, Method.unary.
      destruct (Method.IsStreamingClient m), (Method.IsStreamingServer m); reflexivity. }
  eexists. exists
    {| ServiceName := Quote (Service.FullName s);
       Methods := map entryOf (filter Method.unary (Service.Methods s));
       Streams := map entryOf (filter streaming (Service.Methods s));
       Metadata := File.Path file |}.
  eexists. split; [reflexivity|]. split; [|split].
  - unfold readServiceDesc.
    destruct (Service.Deprecated s); simpl;
      rewrite readEntries_methods; simpl;
      rewrite readEntries_streams; reflexivity.
  - exact Hperm.
  - simpl. rewrite <- length_app, (Permutation_length Hperm). apply length_map.
Qed.

(** *** The descriptor of the client and the entry of the server *)

(** X9.  The stream descriptor a client method declares and the entry
    the registration function writes for the same method agree: read
    back, the literal of the client holds the name and the two streaming
    flags of the entry, and no handler. *)
Theorem client_descriptor_matches_registration (m : Method.t) :
  namedMethod m = true ->
  exists out block,
    genClientMethod m = Some out /\
    blockOf [Str "var "; Str (streamDescName m); Str " = &"; Id (Ident grpcPackage "StreamDesc"); Str "{"]
            out = Some block /\
    readLiteral "StreamName: " true block zeroEntry =
      Some {| EntryName := EntryName (entryOf m);
              Handler := EmptyString;
              ServerStreams := ServerStreams (entryOf m);
              ClientStreams := ClientStreams (entryOf m) |}.
Proof.
  intros Hn. apply namedMethod_inv in Hn as [_ Hp].
  unfold genClientMethod, genClientStreamTypes, streamDescName, blockOf.
  rewrite (unexport_nonEmpty _ Hp).
  destruct (Method.IsStreamingClient m) eqn:Hc, (Method.IsStreamingServer m) eqn:Hs,
           (Method.Deprecated m);
    do 2 eexists; (split; [reflexivity|]);
    simpl; rewrite ?String.eqb_refl; simpl;
    (split; [reflexivity|]); rewrite ?Hc, ?Hs; reflexivity.
Qed.

(** *** The struct of the client *)

Lemma string_append_assoc (a b c : string) : (a ++ b) ++ c = a ++ (b ++ c).
Proof. induction a as [|x a IH]; simpl; [reflexivity|]. now rewrite IH. Qed.

Lemma genClientMethod_header (m : Method.t) :
  namedMethod m = true ->
  In [Str "func (c *"; Str (unexported (Parent.GoName (Method.Parent m))); Str "Client) ";
      Str (clientSignature m); Str "{"]
     (linesOf (genClientMethod m)).
Proof.
  intros Hn. apply namedMethod_inv in Hn as [_ Hp].
  unfold genClientMethod, genClientStreamTypes. rewrite (unexport_nonEmpty _ Hp).
  destruct (Method.IsStreamingClient m), (Method.IsStreamingServer m), (Method.Deprecated m);
    simpl; tauto.
Qed.

(** X10.  The client struct and its methods fit together.  [genClient]
    names the struct by unexporting the client name, [genClientMethod]
    names the receiver by unexporting the service name and appending
    [Client]: for a named service the two are the same name, which is
    also the one the factory [New<Service>Client] returns, and every
    method of the service gets a client method on that receiver. *)
Theorem client_methods_attach_to_declared_struct (s : Service.t) :
  namedService s = true ->
  (forall m, In m (Service.Methods s) -> Method.Parent m = Service.Head s) ->
  exists out,
    genClient false s = Some out /\
    unexported (Service.GoName s ++ "Client") = unexported (Service.GoName s) ++ "Client" /\
    In [Str "type "; Str (unexported (Service.GoName s ++ "Client")); Str " struct {"] out /\
    In [Str "return &"; Str (unexported (Service.GoName s ++ "Client")); Str "{cc}"] out /\
    forall m, In m (Service.Methods s) ->
      In [Str "func (c *"; Str (unexported (Service.GoName s)); Str "Client) ";
          Str (clientSignature m); Str "{"] out.
Proof.
  intros Hn Hparent. destruct (genClient_returns false s Hn) as [out Hout].
  exists out. split; [exact Hout|]. split; [|split; [|split]].
  - apply namedService_inv in Hn as [Hs _].
    destruct (nonEmpty_cons _ Hs) as (c & rest & ->). simpl.
    now rewrite string_append_assoc.
  - unfold genClient in Hout.
    rewrite (unexport_append (Service.GoName s) "Client" eq_refl), forEach_listing in Hout.
    destruct (forEach (Service.Methods s) genClientMethod) as [tail|]; [|
      destruct (Service.Deprecated s); discriminate Hout].
    destruct (Service.Deprecated s); simpl in Hout; injection Hout as <-;
      repeat (apply in_cons); apply in_or_app; right; simpl; tauto.
  - unfold genClient in Hout.
    rewrite (unexport_append (Service.GoName s) "Client" eq_refl), forEach_listing in Hout.
    destruct (forEach (Service.Methods s) genClientMethod) as [tail|]; [|
      destruct (Service.Deprecated s); discriminate Hout].
    destruct (Service.Deprecated s); simpl in Hout; injection Hout as <-;
      repeat (apply in_cons); apply in_or_app; right; simpl; tauto.
  - intros m Hin. destruct (genClient_writes_client_methods s Hn) as [head Hhead].
    rewrite Hhead in Hout. injection Hout as <-.
    apply in_or_app. right. apply in_flat_map. exists m. split; [exact Hin|].
    apply namedService_inv in Hn as [_ Hm].
    pose proof (genClientMethod_header m (Hm m Hin)) as H.
    rewrite (Hparent m Hin) in H. exact H.
Qed.

(** *** Files without services, methods without a name *)

(** X11.  [generateFile] makes no file for a description file without
    services, and [generateFileContent] then writes nothing.  For a file
    with services it makes the file [<prefix>_grpc.pb.go], which starts
    with the generated-code notice and the package clause and goes on
    with what [generateFileContent] writes, the compatibility assertion
    first. *)
Theorem generateFile_only_for_files_with_services (mode : bool) (file : File.t) :
  namedFile file = true ->
  exists content,
    generateFileContent mode file = Some content /\
    match File.Services file with
    | [] => content = [] /\ generateFile mode file = Some None
    | _ :: _ =>
        firstn 4 content = preamble /\
        generateFile mode file =
          Some (Some (File.GeneratedFilenamePrefix file ++ "_grpc.pb.go",
                      [Str "// Code generated by protoc-gen-go-grpc. DO NOT EDIT."] ::
                      [] ::
                      [Str "package "; Str (File.GoPackageName file)] ::
                      [] ::
                      content))
    end.
Proof.
  intros Hn. unfold generateFile.
  rewrite (generateFileContent_lines mode file Hn).
  eexists. split; [reflexivity|].
  destruct (File.Services file); simpl; split; reflexivity.
Qed.

Lemma andThen_None_r (a : Gen) : (a ;; None) = None.
Proof. now destruct a. Qed.

Lemma forEach_None {A : Type} (l : list A) (body : A -> Gen) (a : A) :
  In a l -> body a = None -> forEach l body = None.
Proof.
  induction l as [|b l IH]; intros Hin Ha; [contradiction|]. simpl.
  destruct Hin as [->|Hin].
  - now rewrite Ha.
  - rewrite (IH Hin Ha). apply andThen_None_r.
Qed.

(** X12.  One method without a Go name makes the whole generation panic,
    in either mode and whatever else the file holds: neither
    [generateFileContent] nor [generateFile] returns. *)
Theorem unnamed_method_panics (mode : bool) (file : File.t) (s : Service.t) (m : Method.t) :
  In s (File.Services file) ->
  In m (Service.Methods s) ->
  Method.GoName m = EmptyString ->
  generateFileContent mode file = None /\ generateFile mode file = None.
Proof.
  intros Hs Hm Hname.
  assert (forEach (Service.Methods s) genMethodHandler = None) as Hh
    by (apply (forEach_None _ _ m Hm), genMethodHandler_panics_on_empty_name, Hname).
  assert (genService mode file s = None) as Hg.
  { unfold genService. rewrite Hh. simpl. apply andThen_None_r. }
  assert (generateFileContent mode file = None) as Hc.
  { unfold generateFileContent.
    rewrite (forEach_None (File.Services file) _ s Hs).
    - destruct (File.Services file); [contradiction | reflexivity].
    - rewrite Hg. simpl. apply andThen_None_r. }
  split; [exact Hc|].
  unfold generateFile. rewrite Hc.
  destruct (File.Services file); [contradiction | reflexivity].
Qed.

(** *** Migration mode writes no client code *)

Lemma allLines_P (q : Line -> Prop) (v : list Arg) : q v -> allLines q (P v).
Proof. intros H out [= <-]. now repeat constructor. Qed.

Lemma allLines_skip (q : Line -> Prop) : allLines q skip.
Proof. intros out [= <-]. constructor. Qed.

Lemma allLines_None (q : Line -> Prop) : allLines q None.
Proof. intros out H. discriminate H. Qed.

Lemma allLines_andThen (q : Line -> Prop) (a b : Gen) :
  allLines q a -> allLines q b -> allLines q (a ;; b).
Proof.
  intros Ha Hb out H. apply andThen_Some_inv in H as (x & y & Hx & Hy & ->).
  apply Forall_app. split; [now apply Ha | now apply Hb].
Qed.

Lemma allLines_when (q : Line -> Prop) (c : bool) (g : Gen) :
  allLines q g -> allLines q (when c g).
Proof. destruct c; [trivial | intros _; apply allLines_skip]. Qed.

Lemma allLines_forEach {A : Type} (q : Line -> Prop) (l : list A) (body : A -> Gen) :
  (forall a, allLines q (body a)) -> allLines q (forEach l body).
Proof.
  intros H. induction l as [|a l IH]; simpl; [apply allLines_skip|].
  apply allLines_andThen; [apply H | exact IH].
Qed.

(** Walks a builder write by write; a write is discharged by
    evaluating the predicate on its line. *)
Ltac every_line :=
  repeat first
    [ apply allLines_P; reflexivity
    | apply allLines_skip
    | apply allLines_None
    | apply allLines_andThen
    | apply allLines_when
    | apply allLines_forEach; intros ?
    | match goal with
      | |- allLines _ (match unexport ?x with Some _ => _ | None => _ end) => destruct (unexport x)
      | |- allLines _ (if ?c then _ else _) => destruct c
      end ].

Lemma server_side_has_no_client_code (file : File.t) (s : Service.t) :
  allLines (fun l => clientCode l = false)
           (genClient true s ;; genService true file s ;; genUnstableServiceInterface s).
Proof.
  apply allLines_andThen; [apply allLines_skip|].
  apply allLines_andThen.
  - unfold genService, genServiceStruct, genRegisterFunction, genServiceConstructor.
    every_line.
    unfold genMethodHandler, genHandlerBody.
    match goal with
    | |- context [negb (Method.IsStreamingClient ?m) && negb (Method.IsStreamingServer ?m)] =>
        destruct (negb (Method.IsStreamingClient m) && negb (Method.IsStreamingServer m))
    end; every_line.
  - unfold genUnstableServiceInterface. every_line.
Qed.

(** X13.  In migration mode no line of the output belongs to client
    code: no header of a client method or of a wrapper method, no stream
    descriptor and no stream interface is written, whatever the services
    of the file. *)
Theorem migration_output_has_no_client_code (file : File.t) (out : list Line) :
  generateFileContent true file = Some out ->
  Forall (fun l => clientCode l = false) out.
Proof.
  revert out. change (allLines (fun l => clientCode l = false) (generateFileContent true file)).
  unfold generateFileContent.
  destruct (Nat.eqb (List.length (File.Services file)) 0); [apply allLines_skip|].
  repeat (apply allLines_andThen; [apply allLines_P; reflexivity|]).
  apply allLines_forEach. intros s. apply server_side_has_no_client_code.
Qed.

(** *** The stream interfaces the signatures name *)

Lemma clientStreamHeader_written (m : Method.t) :
  namedMethod m = true -> Method.unary m = false ->
  In (clientStreamHeader m) (linesOf (genClientMethod m)).
Proof.
  intros Hn Hu. apply namedMethod_inv in Hn as [_ Hp].
  unfold genClientMethod, genClientStreamTypes, clientStreamHeader.
  rewrite (unexport_nonEmpty _ Hp). unfold Method.unary in Hu.
  destruct (Method.IsStreamingClient m), (Method.IsStreamingServer m), (Method.Deprecated m);
    try discriminate Hu; simpl; tauto.
Qed.

Lemma serverStreamHeader_written (m : Method.t) :
  namedMethod m = true -> Method.unary m = false ->
  In (serverStreamHeader m) (linesOf (genServerStreamTypes false m)).
Proof.
  intros Hn Hu. apply namedMethod_inv in Hn as [_ Hp].
  unfold genServerStreamTypes, serverStreamHeader.
  rewrite (unexport_nonEmpty _ Hp). unfold Method.unary in Hu.
  destruct (Method.IsStreamingClient m), (Method.IsStreamingServer m);
    try discriminate Hu; simpl; tauto.
Qed.

(** X14.  In full mode every stream interface a signature names is
    declared in the file.  For a streaming method the client signature
    returns [<Service>_<Method>Client] and the handler and method
    signatures end their parameters with [<Service>_<Method>Server];
    the output of the file holds the declaration of both interfaces
    under these very names. *)
Theorem named_stream_interfaces_are_declared
        (comments : string -> string) (file : File.t) (s : Service.t) (m : Method.t) :
  namedFile file = true ->
  In s (File.Services file) ->
  In m (Service.Methods s) ->
  Method.unary m = false ->
  exists out prefix request,
    generateFileContent false file = Some out /\
    clientSignature m = prefix ++ clientStreamName m ++ ", error)" /\
    (handlerSignature m = Method.GoName m ++ " func(" ++ request ++ serverStreamName m ++ ") error" /\
     methodSignature m = Method.GoName m ++ "(" ++ request ++ serverStreamName m ++ ") error") /\
    In (clientStreamHeader m) out /\
    In (serverStreamHeader m) out /\
    renderLine comments (clientStreamHeader m) = "type " ++ clientStreamName m ++ " interface {" /\
    renderLine comments (serverStreamHeader m) = "type " ++ serverStreamName m ++ " interface {".
Proof.
  intros Hn Hs Hm Hu.
  pose proof (namedFile_inv file Hn s Hs) as Hns.
  pose proof (namedService_inv s Hns) as [_ Hnm].
  rewrite (generateFileContent_lines false file Hn).
  eexists.
  exists (Method.GoName m ++ "(ctx " ++ QualifiedGoIdent (Ident contextPackage "Context") ++
          (if Method.IsStreamingClient m then EmptyString
           else ", in *" ++ QualifiedGoIdent (Method.Input m)) ++
          ", opts ..." ++ QualifiedGoIdent (Ident grpcPackage "CallOption") ++ ") (").
  exists (if Method.IsStreamingClient m then EmptyString
          else "*" ++ QualifiedGoIdent (Method.Input m) ++ ", ").
  split; [reflexivity|]. split; [|split; [|split; [|split; [|split]]]].
  - unfold clientSignature, clientStreamName. unfold Method.unary in Hu.
    destruct (Method.IsStreamingClient m), (Method.IsStreamingServer m);
      try discriminate Hu; cbn [negb andb]; rewrite !string_append_assoc; reflexivity.
  - unfold handlerSignature, methodSignature, signatureParts, serverStreamName.
    unfold Method.unary in Hu.
    destruct (Method.IsStreamingClient m), (Method.IsStreamingServer m);
      try discriminate Hu; cbn [negb andb orb app Join]; rewrite ?string_append_assoc;
      split; reflexivity.
  - apply in_or_app. right. apply in_flat_map. exists s. split; [exact Hs|].
    apply in_or_app. left.
    destruct (genClient_writes_client_methods s Hns) as [head ->]. simpl.
    apply in_or_app. right. apply in_flat_map. exists m. split; [exact Hm|].
    apply clientStreamHeader_written; [apply Hnm, Hm | exact Hu].
  - apply in_or_app. right. apply in_flat_map. exists s. split; [exact Hs|].
    apply in_or_app. right. apply in_or_app. left.
    rewrite (genDispatch_lines false s Hns).
    apply in_or_app. right. apply in_or_app. right.
    unfold serverStreamTypes. apply in_flat_map. exists m. split; [exact Hm|].
    apply serverStreamHeader_written; [apply Hnm, Hm | exact Hu].
  - unfold renderLine, clientStreamHeader, clientStreamName.
    cbn [map renderArg String.concat]. rewrite !string_append_assoc. reflexivity.
  - unfold renderLine, serverStreamHeader, serverStreamName.
    cbn [map renderArg String.concat]. rewrite !string_append_assoc. reflexivity.
Qed.

(** *** One adapter a method *)

Lemma no_line_filter (q : Line -> bool) (g : Gen) :
  allLines (fun l => q l = false) g -> filter q (linesOf g) = [].
Proof.
  intros H. destruct g as [out|]; [|reflexivity]. simpl.
  specialize (H out eq_refl). induction H as [|l out Hl _ IH]; simpl; [reflexivity|].
  now rewrite Hl.
Qed.

Lemma filter_flat_map_nil {A : Type} (q : Line -> bool) (f : A -> list Line) (l : list A) :
  (forall a, filter q (f a) = []) -> filter q (flat_map f l) = [].
Proof.
  intros H. induction l as [|a l IH]; simpl; [reflexivity|].
  now rewrite filter_app, H, IH.
Qed.

Lemma filter_flat_map_one {A : Type} (q : Line -> bool) (f : A -> list Line) (h : A -> Line)
      (l : list A) :
  (forall a, In a l -> filter q (f a) = [h a]) -> filter q (flat_map f l) = map h l.
Proof.
  induction l as [|a l IH]; intros H; simpl; [reflexivity|].
  rewrite filter_app, (H a (or_introl eq_refl)), IH by (intros b Hb; apply H; now right).
  reflexivity.
Qed.

Lemma genMethodHandler_one_header (m : Method.t) :
  namedMethod m = true ->
  filter (funcHeader "s") (linesOf (genMethodHandler m)) = [adapterHeader m].
Proof.
  intros Hn. destruct (genMethodHandler_shape m Hn) as (body & Hb & ->).
  apply namedMethod_inv in Hn as [_ Hp].
  unfold genHandlerBody in Hb. rewrite (unexport_nonEmpty _ Hp) in Hb.
  unfold nilGuard.
  destruct (Method.IsStreamingClient m), (Method.IsStreamingServer m);
    injection Hb as <-; reflexivity.
Qed.

(** X15.  The server dispatch of a service holds exactly one adapter a
    method, in the order of the service and in both modes: the functions
    with receiver [s] it declares are the adapters of the methods, each
    under the name the registration function refers to. *)
Theorem one_adapter_per_method (mode : bool) (s : Service.t) :
  namedService s = true ->
  exists out,
    genDispatch mode s = Some out /\
    filter (funcHeader "s") out = map adapterHeader (Service.Methods s) /\
    map (fun m => nth_error (adapterHeader m) 3) (Service.Methods s) =
    map (fun m => Some (Str (Handler (entryOf m)))) (Service.Methods s).
Proof.
  intros Hn. destruct (genDispatch_returns mode s Hn) as [out Hout].
  exists out. split; [exact Hout|]. split; [|reflexivity].
  pose proof (genDispatch_lines mode s Hn) as Hlines. rewrite Hout in Hlines.
  simpl in Hlines. subst out.
  pose proof (namedService_inv s Hn) as [_ Hm].
  rewrite !filter_app.
  rewrite (no_line_filter _ (genServiceStruct s))
    by (unfold genServiceStruct; every_line).
  unfold adapters, serverStreamTypes.
  rewrite (filter_flat_map_one _ _ adapterHeader)
    by (intros m Hin; apply genMethodHandler_one_header, Hm, Hin).
  rewrite filter_flat_map_nil; [apply app_nil_r|].
  intros m. apply no_line_filter. unfold genServerStreamTypes. every_line.
Qed.

End Generator.

(** ** The sample service *)


Lemma adapter_unimplemented_when_field_nil_witness :
  namedMethod ListFeatures = true /\
  fieldNil allNil (Method.GoName ListFeatures) = true /\
  exists out tr,
    genMethodHandler sampleQualify plainQuote asciiToLower ListFeatures = Some out /\
    run allNil "s" out =
      Some (tr, Returns (Ret VNil (Some (Errorf (Ident codesPackage "Unimplemented")
                                                "method ListFeatures not implemented")))) /\
    (forall f, ~ In (EvHandler f) tr) /\
    ~ In EvInterceptor tr.
Proof.
  split; [reflexivity|]. split; [reflexivity|].
  exact (adapter_unimplemented_when_field_nil sampleQualify plainQuote asciiToLower
           ListFeatures allNil eq_refl eq_refl).
Defined.

Lemma builders_write_in_source_order_witness :
  namedFile routeGuideFile = true /\
  generateFileContent sampleQualify plainQuote asciiToLower false routeGuideFile =
    Some (preamble ++
          linesOf (genClient sampleQualify plainQuote asciiToLower false routeGuideService) ++
          linesOf (genDispatch sampleQualify plainQuote asciiToLower false routeGuideService) ++
          linesOf (genRegisterFunction plainQuote asciiToLower routeGuideFile routeGuideService) ++
          linesOf (genServiceConstructor sampleQualify routeGuideService) ++
          linesOf (genUnstableServiceInterface sampleQualify routeGuideService))%list.
Proof.
  split; [reflexivity|].
  destruct (builders_write_in_source_order sampleQualify plainQuote asciiToLower false
              routeGuideFile eq_refl) as [H _].
  rewrite H. vm_compute. reflexivity.
Defined.

(** The claimed order, with the unstable interface before the
    registration function, is not the order of the output: line 224 is
    the comment that opens the registration function, where the claimed
    order has the comment that opens the unstable interface. *)
Lemma unstable_interface_is_written_last :
  generateFileContent sampleQualify plainQuote asciiToLower false routeGuideFile <>
  (Some preamble ;;
   genClient sampleQualify plainQuote asciiToLower false routeGuideService ;;
   genDispatch sampleQualify plainQuote asciiToLower false routeGuideService ;;
   genUnstableServiceInterface sampleQualify routeGuideService ;;
   genRegisterFunction plainQuote asciiToLower routeGuideFile routeGuideService ;;
   genServiceConstructor sampleQualify routeGuideService).
Proof.
  intros H.
  apply (f_equal (fun g => option_map (renderLine sampleQualify (fun c => c))
                             (nth_error (linesOf g) 224))) in H.
  vm_compute in H. discriminate H.
Qed.

Lemma registration_descriptor_witness :
  namedService routeGuideService = true /\
  exists out rest,
    genRegisterFunction plainQuote asciiToLower routeGuideFile routeGuideService = Some out /\
    readServiceDesc out =
      Some ({| ServiceName := plainQuote "routeguide.RouteGuide";
               Methods := [ {| EntryName := plainQuote "GetFeature"; Handler := "getFeature";
                               ServerStreams := false; ClientStreams := false |} ];
               Streams := [ {| EntryName := plainQuote "ListFeatures"; Handler := "listFeatures";
                               ServerStreams := true; ClientStreams := false |};
                            {| EntryName := plainQuote "RecordRoute"; Handler := "recordRoute";
                               ServerStreams := false; ClientStreams := true |};
                            {| EntryName := plainQuote "RouteChat"; Handler := "routeChat";
                               ServerStreams := true; ClientStreams := true |} ];
               Metadata := "route_guide.proto" |}, rest).
Proof.
  split; [reflexivity|].
  destruct (registration_descriptor sampleQualify plainQuote asciiToLower routeGuideFile
              routeGuideService eq_refl) as (out & H1 & H2 & _).
  exists out. eexists. split; [exact H1|]. exact H2.
Defined.

Lemma server_streaming_client_sends_then_closes_witness :
  namedMethod ListFeatures = true /\
  Method.IsStreamingClient ListFeatures = false /\
  Method.IsStreamingServer ListFeatures = true /\
  exists out,
    genClientMethod sampleQualify plainQuote asciiToLower ListFeatures = Some out /\
    run {| fieldNil := fun _ => false; interceptorNil := true; decErr := None; recvErr := None;
           newStreamErr := None; invokeErr := None;
           sendErr := None; closeSendErr := Some "transport is closing" |} "c" out =
      Some ([EvNewStream "routeGuideListFeaturesStreamDesc" "/routeguide.RouteGuide/ListFeatures";
             EvSendMsg; EvCloseSend],
            Returns (Ret VNil (Some (Failure "transport is closing")))).
Proof.
  split; [reflexivity|]. split; [reflexivity|]. split; [reflexivity|].
  exact (server_streaming_client_sends_then_closes sampleQualify plainQuote asciiToLower ListFeatures
           {| fieldNil := fun _ => false; interceptorNil := true; decErr := None; recvErr := None;
              newStreamErr := None; invokeErr := None;
              sendErr := None; closeSendErr := Some "transport is closing" |}
           eq_refl eq_refl eq_refl).
Defined.

Lemma unexport_defined_on_names_witness :
  namedFile routeGuideFile = true /\
  unexport asciiToLower "RouteGuide" = Some "routeGuide" /\
  returns (generateFileContent sampleQualify plainQuote asciiToLower false routeGuideFile).
Proof.
  split; [reflexivity|].
  destruct (unexport_defined_on_names sampleQualify plainQuote asciiToLower "RouteGuide" false
              routeGuideFile eq_refl) as (H1 & _ & H2 & _).
  split; [exact H1 | exact H2].
Defined.

Lemma stream_descriptor_for_every_method_witness :
  namedMethod GetFeature = true /\
  exists rest,
    genClientMethod sampleQualify plainQuote asciiToLower GetFeature =
      Some ([Str "var "; Str "routeGuideGetFeatureStreamDesc"; Str " = &";
             Id (Ident grpcPackage "StreamDesc"); Str "{"] ::
            [Str "StreamName: "; Str (plainQuote "GetFeature"); Str ","] ::
            [Str "}"] :: rest).
Proof.
  split; [reflexivity|].
  destruct (stream_descriptor_for_every_method sampleQualify plainQuote asciiToLower GetFeature allSet
              eq_refl) as (body & H & _).
  eexists. exact H.
Defined.

Lemma nil_check_precedes_request_processing_witness :
  namedMethod GetFeature = true /\
  fieldNil allNil (Method.GoName GetFeature) = true /\
  exists body,
    genHandlerBody plainQuote asciiToLower GetFeature = Some body /\
    run allNil "s" (adapterHeader sampleQualify asciiToLower GetFeature :: nilGuard GetFeature
                    ++ body ++ [[Str "}"]])%list =
      Some ([], Returns (Ret VNil (Some (unimplemented GetFeature)))).
Proof.
  split; [reflexivity|]. split; [reflexivity|].
  destruct (nil_check_precedes_request_processing sampleQualify plainQuote asciiToLower
              GetFeature allNil eq_refl eq_refl) as (body & H1 & _ & H2).
  exists body. split; [exact H1 | exact H2].
Defined.

(** ** The sample service, further *)

Lemma unary_adapter_decodes_then_dispatches_witness :
  namedMethod GetFeature = true /\
  Method.unary GetFeature = true /\
  fieldNil allSet (Method.GoName GetFeature) = false /\
  exists out,
    genMethodHandler sampleQualify plainQuote asciiToLower GetFeature = Some out /\
    run allSet "s" out = Some ([EvDec; EvInterceptor], Returns RetInterceptor).
Proof.
  split; [reflexivity|]. split; [reflexivity|]. split; [reflexivity|].
  exact (unary_adapter_decodes_then_dispatches sampleQualify plainQuote asciiToLower
           GetFeature allSet eq_refl eq_refl eq_refl).
Defined.

Lemma streaming_adapter_receives_only_without_client_stream_witness :
  namedMethod ListFeatures = true /\
  Method.unary ListFeatures = false /\
  fieldNil allSet (Method.GoName ListFeatures) = false /\
  exists out,
    genMethodHandler sampleQualify plainQuote asciiToLower ListFeatures = Some out /\
    run allSet "s" out =
      Some ([EvRecvMsg; EvHandler "ListFeatures"], Returns (RetHandler "ListFeatures")).
Proof.
  split; [reflexivity|]. split; [reflexivity|]. split; [reflexivity|].
  exact (streaming_adapter_receives_only_without_client_stream sampleQualify plainQuote asciiToLower
           ListFeatures allSet eq_refl eq_refl eq_refl).
Defined.

Lemma client_streaming_client_only_opens_witness :
  namedMethod RouteChat = true /\
  Method.IsStreamingClient RouteChat = true /\
  exists out,
    genClientMethod sampleQualify plainQuote asciiToLower RouteChat = Some out /\
    run allSet "c" out =
      Some ([EvNewStream "routeGuideRouteChatStreamDesc" "/routeguide.RouteGuide/RouteChat"],
            Returns (Ret (VWrapper "routeGuideRouteChatClient") None)).
Proof.
  split; [reflexivity|]. split; [reflexivity|].
  exact (client_streaming_client_only_opens sampleQualify plainQuote asciiToLower
           RouteChat allSet eq_refl eq_refl).
Defined.

Lemma client_wrapper_methods_witness :
  namedMethod RecordRoute = true /\
  Method.unary RecordRoute = false /\
  exists out,
    genClientMethod sampleQualify plainQuote asciiToLower RecordRoute = Some out /\
    runWrapper allSet "ClientStream" "routeGuideRecordRouteClient" "CloseAndRecv" out =
      Some ([EvCloseSend; EvRecvMsg], Received).
Proof.
  split; [reflexivity|]. split; [reflexivity|].
  destruct (client_wrapper_methods sampleQualify plainQuote asciiToLower RecordRoute allSet
              eq_refl eq_refl) as (out & H1 & _ & _ & H2).
  exists out. split; [exact H1 | exact (H2 eq_refl)].
Defined.

Lemma server_wrapper_methods_witness :
  namedMethod RecordRoute = true /\
  Method.unary RecordRoute = false /\
  exists out,
    genServerStreamTypes asciiToLower false RecordRoute = Some out /\
    runWrapper allSet "ServerStream" "routeGuideRecordRouteServer" "SendAndClose" out =
      Some ([EvSendMsg], Sent None).
Proof.
  split; [reflexivity|]. split; [reflexivity|].
  destruct (server_wrapper_methods asciiToLower RecordRoute allSet eq_refl eq_refl)
    as (out & H1 & _ & H2 & _).
  exists out. split; [exact H1 | exact (H2 eq_refl)].
Defined.

Lemma method_listings_witness :
  namedService routeGuideService = true /\
  blockOf [Str "type "; Str "RouteGuideService"; Str " struct {"]
          (linesOf (genServiceStruct sampleQualify routeGuideService)) =
    Some (listing (handlerSignature sampleQualify) [GetFeature; ListFeatures; RecordRoute; RouteChat]).
Proof.
  split; [reflexivity|].
  destruct (method_listings sampleQualify plainQuote asciiToLower routeGuideService eq_refl)
    as (client & _ & _ & H & _).
  exact H.
Defined.

Lemma every_method_registered_once_witness :
  namedService routeGuideService = true /\
  exists out sd rest,
    genRegisterFunction plainQuote asciiToLower routeGuideFile routeGuideService = Some out /\
    readServiceDesc out = Some (sd, rest) /\
    List.length (Methods sd) + List.length (Streams sd) = 4.
Proof.
  split; [reflexivity|].
  destruct (every_method_registered_once plainQuote asciiToLower routeGuideFile routeGuideService
              eq_refl) as (out & sd & rest & H1 & H2 & _ & H3).
  exists out, sd, rest. split; [exact H1|]. split; [exact H2 | exact H3].
Defined.

Lemma client_descriptor_matches_registration_witness :
  namedMethod ListFeatures = true /\
  exists out block,
    genClientMethod sampleQualify plainQuote asciiToLower ListFeatures = Some out /\
    blockOf [Str "var "; Str "routeGuideListFeaturesStreamDesc"; Str " = &";
             Id (Ident grpcPackage "StreamDesc"); Str "{"] out = Some block /\
    readLiteral "StreamName: " true block zeroEntry =
      Some {| EntryName := plainQuote "ListFeatures"; Handler := EmptyString;
              ServerStreams := true; ClientStreams := false |}.
Proof.
  split; [reflexivity|].
  exact (client_descriptor_matches_registration sampleQualify plainQuote asciiToLower
           ListFeatures eq_refl).
Defined.

Lemma client_methods_attach_to_declared_struct_witness :
  namedService routeGuideService = true /\
  (forall m, In m (Service.Methods routeGuideService) ->
             Method.Parent m = Service.Head routeGuideService) /\
  exists out,
    genClient sampleQualify plainQuote asciiToLower false routeGuideService = Some out /\
    In [Str "type "; Str "routeGuideClient"; Str " struct {"] out.
Proof.
  assert (forall m, In m (Service.Methods routeGuideService) ->
                    Method.Parent m = Service.Head routeGuideService) as Hp
    by (intros m [<-|[<-|[<-|[<-|[]]]]]; reflexivity).
  split; [reflexivity|]. split; [exact Hp|].
  destruct (client_methods_attach_to_declared_struct sampleQualify plainQuote asciiToLower
              routeGuideService eq_refl Hp) as (out & H1 & _ & H2 & _).
  exists out. split; [exact H1 | exact H2].
Defined.

Lemma generateFile_only_for_files_with_services_witness :
  namedFile routeGuideFile = true /\
  exists content,
    generateFile sampleQualify plainQuote asciiToLower false routeGuideFile =
      Some (Some ("route_guide_grpc.pb.go",
                  [Str "// Code generated by protoc-gen-go-grpc. DO NOT EDIT."] ::
                  [] :: [Str "package "; Str "route"] :: [] :: content)).
Proof.
  split; [reflexivity|].
  destruct (generateFile_only_for_files_with_services sampleQualify plainQuote asciiToLower false
              routeGuideFile eq_refl) as (content & _ & _ & H).
  exists content. exact H.
Defined.

Lemma unnamed_method_panics_witness :
  In unnamedService (File.Services unnamedFile) /\
  In unnamedMethod (Service.Methods unnamedService) /\
  Method.GoName unnamedMethod = EmptyString /\
  generateFileContent sampleQualify plainQuote asciiToLower true unnamedFile = None.
Proof.
  assert (In unnamedService (File.Services unnamedFile)) as H1 by (left; reflexivity).
  assert (In unnamedMethod (Service.Methods unnamedService)) as H2 by (right; left; reflexivity).
  split; [exact H1|]. split; [exact H2|]. split; [reflexivity|].
  exact (proj1 (unnamed_method_panics sampleQualify plainQuote asciiToLower true unnamedFile
                  unnamedService unnamedMethod H1 H2 eq_refl)).
Defined.

(** The migration output of the sample file has no line of client code;
    its full output has some. *)
Lemma migration_output_has_no_client_code_witness :
  generateFileContent sampleQualify plainQuote asciiToLower true routeGuideFile =
    Some (linesOf (generateFileContent sampleQualify plainQuote asciiToLower true routeGuideFile)) /\
  Forall (fun l => clientCode l = false)
         (linesOf (generateFileContent sampleQualify plainQuote asciiToLower true routeGuideFile)) /\
  existsb clientCode
          (linesOf (generateFileContent sampleQualify plainQuote asciiToLower false routeGuideFile))
    = true.
Proof.
  assert (generateFileContent sampleQualify plainQuote asciiToLower true routeGuideFile =
          Some (linesOf (generateFileContent sampleQualify plainQuote asciiToLower true routeGuideFile)))
    as H by (vm_compute; reflexivity).
  split; [exact H|]. split.
  - exact (migration_output_has_no_client_code sampleQualify plainQuote asciiToLower
             routeGuideFile _ H).
  - vm_compute. reflexivity.
Defined.

Lemma named_stream_interfaces_are_declared_witness :
  namedFile routeGuideFile = true /\
  In routeGuideService (File.Services routeGuideFile) /\
  In RouteChat (Service.Methods routeGuideService) /\
  Method.unary RouteChat = false /\
  exists out,
    generateFileContent sampleQualify plainQuote asciiToLower false routeGuideFile = Some out /\
    In (clientStreamHeader RouteChat) out /\
    In (serverStreamHeader RouteChat) out.
Proof.
  assert (In routeGuideService (File.Services routeGuideFile)) as H1 by (left; reflexivity).
  assert (In RouteChat (Service.Methods routeGuideService)) as H2
    by (right; right; right; left; reflexivity).
  split; [reflexivity|]. split; [exact H1|]. split; [exact H2|]. split; [reflexivity|].
  destruct (named_stream_interfaces_are_declared sampleQualify plainQuote asciiToLower (fun c => c)
              routeGuideFile routeGuideService RouteChat eq_refl H1 H2 eq_refl)
    as (out & _ & _ & H & _ & _ & Hc & Hs & _).
  exists out. split; [exact H|]. split; [exact Hc | exact Hs].
Defined.

Lemma one_adapter_per_method_witness :
  namedService routeGuideService = true /\
  exists out,
    genDispatch sampleQualify plainQuote asciiToLower false routeGuideService = Some out /\
    List.length (filter (funcHeader "s") out) = 4.
Proof.
  split; [reflexivity|].
  destruct (one_adapter_per_method sampleQualify plainQuote asciiToLower false routeGuideService
              eq_refl) as (out & H1 & H2 & _).
  exists out. split; [exact H1|]. rewrite H2. reflexivity.
Defined.

(** ** The names of the packages in the two modes *)

(** *** What the sink answers in a run is what it answers at its end *)

Lemma packageName_app (names extra : Names) (path name : string) :
  packageName names path = Some name -> packageName (names ++ extra)%list path = Some name.
Proof.
  induction names as [|[p n] names IH]; simpl; [discriminate|].
  destruct (String.eqb p path); auto.
Qed.

Lemma packageName_new (names : Names) (path name : string) :
  packageName names path = None -> packageName (names ++ [(path, name)])%list path = Some name.
Proof.
  induction names as [|[p n] names IH]; simpl.
  - now rewrite String.eqb_refl.
  - destruct (String.eqb p path); [discriminate | exact IH].
Qed.

Lemma qualify_extends (own : string) (base : string -> string) (predeclared : list string)
      (names : Names) (ident : GoIdent.t) :
  exists extra, snd (qualify own base predeclared names ident) = (names ++ extra)%list.
Proof.
  unfold qualify. destruct (String.eqb (GoIdent.GoImportPath ident) own).
  - exists []. simpl. now rewrite app_nil_r.
  - destruct (packageName names (GoIdent.GoImportPath ident)).
    + exists []. simpl. now rewrite app_nil_r.
    + eexists. reflexivity.
Qed.

Lemma namesAfter_extends (own : string) (base : string -> string) (predeclared : list string)
      (asked : list GoIdent.t) :
  forall names, exists extra, namesAfter own base predeclared names asked = (names ++ extra)%list.
Proof.
  unfold namesAfter. induction asked as [|ident asked IH]; intros names; simpl.
  - exists []. now rewrite app_nil_r.
  - destruct (qualify_extends own base predeclared names ident) as [e1 ->].
    destruct (IH (names ++ e1)%list) as [e2 ->].
    exists (e1 ++ e2)%list. now rewrite app_assoc.
Qed.

Lemma qualify_recorded (own : string) (base : string -> string) (predeclared : list string)
      (names : Names) (ident : GoIdent.t) :
  String.eqb (GoIdent.GoImportPath ident) own = false ->
  exists name,
    fst (qualify own base predeclared names ident) = name ++ "." ++ GoIdent.GoName ident /\
    packageName (snd (qualify own base predeclared names ident)) (GoIdent.GoImportPath ident)
      = Some name.
Proof.
  intros Hown. unfold qualify. rewrite Hown.
  destruct (packageName names (GoIdent.GoImportPath ident)) as [name|] eqn:Hname.
  - exists name. split; [reflexivity | exact Hname].
  - eexists. split; [reflexivity|]. simpl. now apply packageName_new.
Qed.

(** The answer the sink gives to a call in the course of a run is the
    answer it gives to the same identifier once the run is over. *)
Lemma answers_are_final (own : string) (base : string -> string) (predeclared : list string)
      (before after : list GoIdent.t) (ident : GoIdent.t) :
  fst (qualify own base predeclared (namesAfter own base predeclared [] before) ident) =
  qualifierOf own base predeclared (before ++ ident :: after)%list ident.
Proof.
  unfold qualifierOf.
  assert (namesAfter own base predeclared [] (before ++ ident :: after)%list =
          namesAfter own base predeclared
                     (snd (qualify own base predeclared
                                   (namesAfter own base predeclared [] before) ident)) after)
    as -> by (unfold namesAfter; now rewrite fold_left_app).
  set (names := namesAfter own base predeclared [] before).
  destruct (namesAfter_extends own base predeclared after
                               (snd (qualify own base predeclared names ident))) as [extra ->].
  destruct (String.eqb (GoIdent.GoImportPath ident) own) eqn:Hown.
  - unfold qualify. now rewrite Hown.
  - destruct (qualify_recorded own base predeclared names ident Hown) as (name & Hfst & Hrec).
    rewrite Hfst. unfold qualify at 1. rewrite Hown.
    now rewrite (packageName_app _ extra _ _ Hrec).
Qed.

(** *** The text of the server side under two qualifiers *)

Lemma GoIdent_eqb_eq (a b : GoIdent.t) : GoIdent.eqb a b = true -> a = b.
Proof.
  destruct a as [an ap], b as [bn bp]. unfold GoIdent.eqb. simpl.
  intros H. apply andb_true_iff in H as [Hn Hp].
  apply String.eqb_eq in Hn, Hp. now subst.
Qed.

Section TwoRuns.

Variables Qm Qf : GoIdent.t -> string.
Variables Quote ToLower comments : string -> string.

Lemma renderLine_within (allowed : list GoIdent.t) (l : Line) :
  (forall id, In id allowed -> Qm id = Qf id) ->
  identsWithin allowed l = true ->
  renderLine Qm comments l = renderLine Qf comments l.
Proof.
  intros Hq. unfold identsWithin, renderLine. induction l as [|a l IH]; intros H; [reflexivity|].
  assert (renderArg Qm comments a = renderArg Qf comments a) as Ha.
  { destruct a as [x|id|x]; try reflexivity. simpl in *.
    apply andb_true_iff in H as [H _]. apply existsb_exists in H as (id' & Hin & Heq).
    apply GoIdent_eqb_eq in Heq. subst id'. now apply Hq. }
  assert (forallb (fun id => existsb (GoIdent.eqb id) allowed) (identsOfLine l) = true) as Hl.
  { destruct a as [x|id|x]; simpl in H; try exact H. now apply andb_true_iff in H. }
  specialize (IH Hl). simpl map. destruct l as [|b l]; simpl in *.
  - exact Ha.
  - now rewrite Ha, IH.
Qed.

Lemma render_within (allowed : list GoIdent.t) (g : Gen) :
  (forall id, In id allowed -> Qm id = Qf id) ->
  allLines (fun l => identsWithin allowed l = true) g ->
  render Qm comments (linesOf g) = render Qf comments (linesOf g).
Proof.
  intros Hq Hg. destruct g as [out|]; [|reflexivity]. simpl.
  specialize (Hg out eq_refl). unfold render.
  induction Hg as [|l out Hl _ IH]; simpl; [reflexivity|].
  now rewrite (renderLine_within allowed l Hq Hl), IH.
Qed.

(** Walks a builder write by write, as [every_line] does. *)
Ltac walk :=
  repeat first
    [ apply allLines_P; reflexivity
    | apply allLines_skip
    | apply allLines_None
    | apply allLines_andThen
    | apply allLines_when
    | apply allLines_forEach; intros ?
    | match goal with
      | |- allLines _ (match unexport ?t ?x with Some _ => _ | None => _ end) =>
          destruct (unexport t x)
      | |- allLines _ (if ?c then _ else _) => destruct c
      end ].

(** Turns the agreement of the two qualifiers on a list into one
    equation an identifier. *)
Ltac agreements H :=
  apply Forall_forall in H;
  repeat match goal with
         | F : Forall _ (_ :: _) |- _ => inversion F; subst; clear F
         | F : Forall _ [] |- _ => clear F
         end.

Ltac rewrite_agreements :=
  repeat match goal with
         | E : Qm _ = Qf _ |- _ => rewrite ?E; clear E
         end.

Lemma signatureParts_agree (m : Method.t) :
  (forall id, In id (signatureUses m) -> Qm id = Qf id) ->
  signatureParts Qm m = signatureParts Qf m.
Proof.
  intros H. unfold signatureParts. unfold signatureUses in H.
  destruct (Method.IsStreamingClient m), (Method.IsStreamingServer m);
    cbn [negb andb orb app] in *; agreements H; rewrite_agreements; reflexivity.
Qed.

Lemma handlerSignature_agree (m : Method.t) :
  (forall id, In id (signatureUses m) -> Qm id = Qf id) ->
  handlerSignature Qm m = handlerSignature Qf m.
Proof. intros H. unfold handlerSignature. now rewrite (signatureParts_agree m H). Qed.

Lemma methodSignature_agree (m : Method.t) :
  (forall id, In id (signatureUses m) -> Qm id = Qf id) ->
  methodSignature Qm m = methodSignature Qf m.
Proof. intros H. unfold methodSignature. now rewrite (signatureParts_agree m H). Qed.

Lemma listing_agree (f g : Method.t -> string) (ms : list Method.t) :
  (forall m, In m ms -> f m = g m) -> listing f ms = listing g ms.
Proof.
  intros H. unfold listing. apply flat_map_ext_In. intros m Hin. now rewrite (H m Hin).
Qed.

Lemma forEach_agree {A : Type} (l : list A) (f g : A -> Gen) :
  (forall a, In a l -> f a = g a) -> forEach l f = forEach l g.
Proof.
  induction l as [|a l IH]; intros H; simpl; [reflexivity|].
  rewrite (H a (or_introl eq_refl)), IH by (intros b Hb; apply H; now right).
  reflexivity.
Qed.

Lemma uses_of_method (s : Service.t) (m : Method.t) (uses : Method.t -> list GoIdent.t) :
  (forall id, In id (flat_map uses (Service.Methods s)) -> Qm id = Qf id) ->
  In m (Service.Methods s) ->
  forall id, In id (uses m) -> Qm id = Qf id.
Proof.
  intros H Hin id Hid. apply H, in_flat_map. now exists m.
Qed.

(** The struct, the constructor and the unstable interface hand no
    identifier to the sink: the qualifier shows in their signatures
    only. *)
Lemma genServiceStruct_text (s : Service.t) :
  (forall id, In id (flat_map signatureUses (Service.Methods s)) -> Qm id = Qf id) ->
  render Qm comments (linesOf (genServiceStruct Qm s)) =
  render Qf comments (linesOf (genServiceStruct Qf s)).
Proof.
  intros H.
  assert (genServiceStruct Qm s = genServiceStruct Qf s) as ->.
  { unfold genServiceStruct. rewrite !forEach_listing.
    rewrite (listing_agree (handlerSignature Qm) (handlerSignature Qf)); [reflexivity|].
    intros m Hin. apply handlerSignature_agree, (uses_of_method s m signatureUses H Hin). }
  apply (render_within []); [intros id []|].
  unfold genServiceStruct. walk.
Qed.

Lemma genUnstableServiceInterface_text (s : Service.t) :
  (forall id, In id (flat_map signatureUses (Service.Methods s)) -> Qm id = Qf id) ->
  render Qm comments (linesOf (genUnstableServiceInterface Qm s)) =
  render Qf comments (linesOf (genUnstableServiceInterface Qf s)).
Proof.
  intros H.
  assert (genUnstableServiceInterface Qm s = genUnstableServiceInterface Qf s) as ->.
  { unfold genUnstableServiceInterface. rewrite !forEach_listing.
    rewrite (listing_agree (methodSignature Qm) (methodSignature Qf)); [reflexivity|].
    intros m Hin. apply methodSignature_agree, (uses_of_method s m signatureUses H Hin). }
  apply (render_within []); [intros id []|].
  unfold genUnstableServiceInterface. walk.
Qed.

Lemma genServiceConstructor_text (s : Service.t) :
  (forall id, In id (flat_map signatureUses (Service.Methods s)) -> Qm id = Qf id) ->
  render Qm comments (linesOf (genServiceConstructor Qm s)) =
  render Qf comments (linesOf (genServiceConstructor Qf s)).
Proof.
  intros H.
  assert (genServiceConstructor Qm s = genServiceConstructor Qf s) as ->.
  { unfold genServiceConstructor. erewrite forEach_agree; [reflexivity|].
    intros m Hin. simpl.
    now rewrite (methodSignature_agree m (uses_of_method s m signatureUses H Hin)). }
  apply (render_within []); [intros id []|].
  unfold genServiceConstructor. walk.
Qed.

(** The registration function does not read the qualifier; the
    identifiers it hands to the sink are the four of
    [genRegisterFunctionUses]. *)
Lemma genRegisterFunction_text (file : File.t) (s : Service.t) :
  (forall id, In id genRegisterFunctionUses -> Qm id = Qf id) ->
  render Qm comments (linesOf (genRegisterFunction Quote ToLower file s)) =
  render Qf comments (linesOf (genRegisterFunction Quote ToLower file s)).
Proof.
  intros H. apply (render_within genRegisterFunctionUses); [exact H|].
  unfold genRegisterFunction. walk.
Qed.

(** An adapter: its signature is built with the qualifier, and its lines
    hand [Errorf], [Unimplemented] and the identifiers of the body to the
    sink. *)
Lemma genMethodHandler_text (m : Method.t) :
  namedMethod m = true ->
  (forall id, In id (genMethodHandlerUses m) -> Qm id = Qf id) ->
  render Qm comments (linesOf (genMethodHandler Qm Quote ToLower m)) =
  render Qf comments (linesOf (genMethodHandler Qf Quote ToLower m)).
Proof.
  intros Hn H. apply namedMethod_inv in Hn as [Hg Hp].
  unfold genMethodHandler, genHandlerBody.
  rewrite (unexport_nonEmpty _ _ Hg), (unexport_nonEmpty _ _ Hp).
  unfold genMethodHandlerUses, genHandlerBodyUses, streamHandlerSignatureUses,
    unaryHandlerSignatureUses in H.
  unfold unaryHandlerSignature, streamHandlerSignature, render, renderLine.
  destruct (Method.IsStreamingClient m), (Method.IsStreamingServer m);
    cbn [negb andb orb app] in H; agreements H;
    cbn [negb andb orb linesOf andThen P app map renderArg];
    rewrite_agreements; reflexivity.
Qed.

(** The server side of a named service reads the same under the two
    qualifiers when they agree on the identifiers the server side asks
    for. *)
Lemma serverSide_text (file : File.t) (s : Service.t) :
  namedService s = true ->
  (forall id, In id (genServiceUses true s) -> Qm id = Qf id) ->
  render Qm comments (serverSide Qm Quote ToLower s file) =
  render Qf comments (serverSide Qf Quote ToLower s file).
Proof.
  intros Hn H. apply namedService_inv in Hn as [_ Hm].
  assert (forall id, In id (flat_map signatureUses (Service.Methods s)) -> Qm id = Qf id) as Hsig
    by (intros id Hid; apply H; unfold genServiceUses; apply in_or_app; now left).
  assert (forall id, In id (flat_map genMethodHandlerUses (Service.Methods s)) -> Qm id = Qf id)
    as Hadapters
    by (intros id Hid; apply H; unfold genServiceUses; apply in_or_app; right;
        apply in_or_app; now left).
  assert (forall id, In id genRegisterFunctionUses -> Qm id = Qf id) as Hreg
    by (intros id Hid; apply H; unfold genServiceUses; apply in_or_app; right;
        apply in_or_app; right; apply in_or_app; right; apply in_or_app; now left).
  unfold serverSide, render. rewrite !map_app.
  f_equal; [apply genServiceStruct_text, Hsig|].
  f_equal.
  { unfold adapters. rewrite !flat_map_concat_map, !concat_map, !map_map.
    f_equal. apply map_ext_in. intros m Hin.
    apply genMethodHandler_text;
      [apply Hm, Hin | apply (uses_of_method s m genMethodHandlerUses Hadapters Hin)]. }
  f_equal; [apply genRegisterFunction_text, Hreg|].
  f_equal; [apply genServiceConstructor_text, Hsig | apply genUnstableServiceInterface_text, Hsig].
Qed.

End TwoRuns.

Lemma uses_of_service (mode : bool) (file : File.t) (s : Service.t) :
  In s (File.Services file) ->
  incl (genServiceUses mode s) (generateFileContentUses mode file).
Proof.
  intros Hin id Hid. unfold generateFileContentUses.
  destruct (File.Services file) as [|s0 rest] eqn:Hs; [contradiction|].
  cbn [List.length Nat.eqb]. right. rewrite <- Hs in *.
  apply in_flat_map. exists s. split; [exact Hin|].
  apply in_or_app. right. apply in_or_app. now left.
Qed.

Lemma render_flat_map_agree {A : Type} (Qm Qf : GoIdent.t -> string) (comments : string -> string)
      (f g : A -> list Line) (l : list A) :
  (forall a, In a l -> render Qm comments (f a) = render Qf comments (g a)) ->
  render Qm comments (flat_map f l) = render Qf comments (flat_map g l).
Proof.
  unfold render. induction l as [|a l IH]; intros H; simpl; [reflexivity|].
  rewrite !map_app, (H a (or_introl eq_refl)), IH by (intros b Hb; apply H; now right).
  reflexivity.
Qed.



